(** * Hotel bookings dashboard: the filter and the derived metrics of app.py

    A shallow embedding of the data path of [app.py]: the sidebar
    selection, the boolean-mask filter that builds [filtered_df], and the
    aggregates that the five tabs compute from it.

    Conventions of the embedding.
    - A pandas [Series] is the list of its values in row order.  Every
      Series that app.py combines comes from the same frame, so index
      alignment is positional.
    - [float64] is an exact rational or [NaN]. The rounding of float64
      arithmetic is not modelled, so the development states what the
      aggregates are structurally (which rows enter which figure, in what
      order, when a figure is NaN) and bounds that rounding keeps, and no
      identity between differently computed sums or means.
      The [adr] column holds numbers only (no missing value).
    - An int64 cell is an integer; the sum of two int64 columns wraps
      around.
    - A [DataFrame] is its rows (one [Booking] per row, columns being the
      record projections) together with the columns added by item
      assignment. *)

From Stdlib Require Import List Bool ZArith QArith Qminmax Qround String Lia.
From Stdlib Require Import Permutation Sorted OrderedTypeEx Lqa.
Import ListNotations.

Local Open Scope Q_scope.

(** ** The fragment of pandas used by app.py *)

Module Pandas.

(** A float64 cell or scalar. *)
Inductive float64 : Type :=
| Fin (q : Q)
| NaN.

Definition isnan (x : float64) : bool :=
  match x with NaN => true | Fin _ => false end.

(** [x * k] for a float [x] and a number [k]: NaN is absorbing. *)
Definition fmul (x : float64) (k : Q) : float64 :=
  match x with Fin q => Fin (q * k) | NaN => NaN end.

Definition Series (A : Type) : Type := list A.

Section Elementwise.
Context {A B C : Type}.

(** Binary operator on two Series of one frame: row by row. *)
Fixpoint zip_with (f : A -> B -> C) (s1 : Series A) (s2 : Series B)
  : Series C :=
  match s1, s2 with
  | x :: s1', y :: s2' => f x y :: zip_with f s1' s2'
  | _, _ => []
  end.
End Elementwise.

(** [+] on two int64 values: the sum modulo 2^64, in the range from
    -2^63 to 2^63 - 1. *)
Definition int64_add (a b : Z) : Z :=
  ((a + b + 2 ^ 63) mod 2 ^ 64 - 2 ^ 63)%Z.

(** [s.isin(values)] *)
Definition isin {A : Type} (eqb : A -> A -> bool)
  (s : Series A) (values : list A) : Series bool :=
  map (fun x => existsb (eqb x) values) s.

(** [s.between(left, right)], inclusive="both":
    [(left <= s) & (s <= right)]. *)
Definition between (s : Series Q) (left right : Q) : Series bool :=
  map (fun x => Qle_bool left x && Qle_bool x right) s.

(** [m1 & m2] on boolean Series. *)
Definition mask_and (m1 m2 : Series bool) : Series bool :=
  zip_with andb m1 m2.

(** [s1 != s2] *)
Definition ne {A : Type} (eqb : A -> A -> bool) (s1 s2 : Series A)
  : Series bool :=
  zip_with (fun x y => negb (eqb x y)) s1 s2.

(** Rows selected by a boolean mask, [frame[mask]]: the rows whose mask
    entry is True, in frame order. *)
Fixpoint select {A : Type} (rows : list A) (mask : Series bool) : list A :=
  match rows, mask with
  | r :: rows', b :: mask' =>
      if b then r :: select rows' mask' else select rows' mask'
  | _, _ => []
  end.

(** [s.sum()]: 0 for the empty Series. The sum is exact here; float64
    rounds each partial sum. *)
Definition sum (s : Series Q) : Q := fold_left Qplus s 0.

(** [s.mean()]: the sum over the count when the count is positive,
    NaN otherwise. The quotient is exact here; float64 rounds it. *)
Definition mean (s : Series Q) : float64 :=
  match s with
  | [] => NaN
  | _ :: _ => Fin (sum s / inject_Z (Z.of_nat (List.length s)))
  end.

(** [s.min()] and [s.max()]: NaN for the empty Series. *)
Definition min (s : Series Q) : float64 :=
  match s with
  | [] => NaN
  | x :: s' => Fin (fold_left Qmin s' x)
  end.

Definition max (s : Series Q) : float64 :=
  match s with
  | [] => NaN
  | x :: s' => Fin (fold_left Qmax s' x)
  end.

(** A boolean or integer Series read as numbers by [mean]. *)
Definition of_bools (s : Series bool) : Series Q :=
  map (fun b : bool => if b then 1 else 0) s.

Definition of_ints (s : Series Z) : Series Q := map inject_Z s.

(** [s.unique()]: the distinct values in order of first appearance. *)
Fixpoint unique_acc {A : Type} (eqb : A -> A -> bool)
  (seen : list A) (s : Series A) : list A :=
  match s with
  | [] => rev seen
  | x :: s' =>
      if existsb (eqb x) seen then unique_acc eqb seen s'
      else unique_acc eqb (x :: seen) s'
  end.

Definition unique {A : Type} (eqb : A -> A -> bool) (s : Series A)
  : list A :=
  unique_acc eqb [] s.

End Pandas.

(** ** Python builtins *)

Module Py.

(** [int(x)] on a float: truncation toward zero; [int(nan)] raises
    ValueError. *)
Definition truncate (q : Q) : Z := Z.quot (Qnum q) (Zpos (Qden q)).

Definition int (x : Pandas.float64) : option Z :=
  match x with
  | Pandas.Fin q => Some (truncate q)
  | Pandas.NaN => None
  end.

End Py.

(** ** The booking table *)

Record Booking : Type := mkBooking {
  hotel : string;
  arrival_date_year : Z;
  arrival_date_month : string;
  customer_type : string;
  adr : Q;
  is_canceled : Z;
  stays_in_week_nights : Z;
  stays_in_weekend_nights : Z;
  country : string;
  agent : Z;
  market_segment : string;
  reserved_room_type : string;
  assigned_room_type : string;
  is_repeated_guest : Z
}.

(** [frame[name]] for a column of the CSV. *)
Definition col {A : Type} (f : Booking -> A) (rows : list Booking)
  : Pandas.Series A :=
  map f rows.

(** ** Sidebar selection *)

Record Selection : Type := mkSelection {
  hotel_types : list string;
  years : list Z;
  months : list string;
  customer_types : list string;
  adr_range : Z * Z
}.

(** ** The filter (app.py, lines 40-46) *)

Definition filter_mask (sel : Selection) (df : list Booking)
  : Pandas.Series bool :=
  Pandas.mask_and
    (Pandas.mask_and
       (Pandas.mask_and
          (Pandas.mask_and
             (Pandas.isin String.eqb (col hotel df) (hotel_types sel))
             (Pandas.isin Z.eqb (col arrival_date_year df) (years sel)))
          (Pandas.isin String.eqb (col arrival_date_month df) (months sel)))
       (Pandas.isin String.eqb (col customer_type df) (customer_types sel)))
    (Pandas.between (col adr df)
       (inject_Z (fst (adr_range sel))) (inject_Z (snd (adr_range sel)))).

Definition filtered_rows (sel : Selection) (df : list Booking)
  : list Booking :=
  Pandas.select df (filter_mask sel df).

(** The five predicates of the filter, per record. *)
Definition retained (sel : Selection) (r : Booking) : Prop :=
  In (hotel r) (hotel_types sel) /\
  In (arrival_date_year r) (years sel) /\
  In (arrival_date_month r) (months sel) /\
  In (customer_type r) (customer_types sel) /\
  inject_Z (fst (adr_range sel)) <= adr r <= inject_Z (snd (adr_range sel)).

Definition retainedb (sel : Selection) (r : Booking) : bool :=
  existsb (String.eqb (hotel r)) (hotel_types sel)
  && existsb (Z.eqb (arrival_date_year r)) (years sel)
  && existsb (String.eqb (arrival_date_month r)) (months sel)
  && existsb (String.eqb (customer_type r)) (customer_types sel)
  && (Qle_bool (inject_Z (fst (adr_range sel))) (adr r)
      && Qle_bool (adr r) (inject_Z (snd (adr_range sel)))).

(** Order-preserving embedding of one list into another. *)
Inductive subseq {A : Type} : list A -> list A -> Prop :=
| subseq_nil : subseq [] []
| subseq_skip x l1 l2 : subseq l1 l2 -> subseq l1 (x :: l2)
| subseq_keep x l1 l2 : subseq l1 l2 -> subseq (x :: l1) (x :: l2).

(** ** Sidebar defaults (app.py, lines 24-37) *)

(** [sorted(xs)] on integers. *)
Fixpoint insert_sorted (x : Z) (l : list Z) : list Z :=
  match l with
  | [] => [x]
  | y :: l' => if (x <=? y)%Z then x :: l else y :: insert_sorted x l'
  end.

Definition sorted (l : list Z) : list Z := fold_right insert_sorted [] l.

(** [min_adr, max_adr = int(df['adr'].min()), int(df['adr'].max())]:
    undefined ([int] raises) on a table without rows. *)
Definition adr_bounds (df : list Booking) : option (Z * Z) :=
  match Py.int (Pandas.min (col adr df)), Py.int (Pandas.max (col adr df)) with
  | Some min_adr, Some max_adr => Some (min_adr, max_adr)
  | _, _ => None
  end.

(** The selection when the user touches no widget: every multiselect
    holds all its options and the slider spans [(min_adr, max_adr)].
    [st.sidebar.slider] raises unless [min_adr] is below [max_adr], and
    the script then builds no selection. *)
Definition default_selection (df : list Booking) : option Selection :=
  match adr_bounds df with
  | Some bounds =>
      if (fst bounds <? snd bounds)%Z then
        Some {| hotel_types := Pandas.unique String.eqb (col hotel df);
                years :=
                  sorted (Pandas.unique Z.eqb (col arrival_date_year df));
                months :=
                  Pandas.unique String.eqb (col arrival_date_month df);
                customer_types :=
                  Pandas.unique String.eqb (col customer_type df);
                adr_range := bounds |}
      else None
  | None => None
  end.

(** ** Key figures (app.py, lines 64-67 and 171) *)

Definition total_bookings (t : list Booking) : nat := List.length t.

(** [filtered_df['adr'].mean()] *)
Definition avg_adr (t : list Booking) : Pandas.float64 :=
  Pandas.mean (col adr t).

(** [filtered_df['adr'] * (filtered_df['stays_in_week_nights']
      + filtered_df['stays_in_weekend_nights'])] *)
Definition revenue_series (t : list Booking) : Pandas.Series Q :=
  Pandas.zip_with Qmult (col adr t)
    (Pandas.of_ints
       (Pandas.zip_with Pandas.int64_add
          (col stays_in_week_nights t) (col stays_in_weekend_nights t))).

Definition total_revenue (t : list Booking) : Q :=
  Pandas.sum (revenue_series t).

(** [filtered_df['is_canceled'].mean() * 100] *)
Definition cancellation_rate (t : list Booking) : Pandas.float64 :=
  Pandas.fmul (Pandas.mean (Pandas.of_ints (col is_canceled t))) 100.

(** [(filtered_df['assigned_room_type']
      != filtered_df['reserved_room_type']).mean() * 100] *)
Definition upgrade_rate (t : list Booking) : Pandas.float64 :=
  Pandas.fmul
    (Pandas.mean
       (Pandas.of_bools
          (Pandas.ne String.eqb
             (col assigned_room_type t) (col reserved_room_type t))))
    100.

(** The entry of one booking in the revenue Series. *)
Definition booking_revenue (r : Booking) : Q :=
  adr r
  * inject_Z
      (Pandas.int64_add (stays_in_week_nights r) (stays_in_weekend_nights r)).

(** An aggregate is guarded when it does not hand NaN to its caller on
    the table without rows. *)
Definition guarded (metric : list Booking -> Pandas.float64) : Prop :=
  Pandas.isnan (metric []) = false.

(** ** Grouped series (app.py, lines 107-108, 187, 196-197) *)

Module GroupBy.

Section Groups.
Context {K V : Type}.
Variable cmp : K -> K -> comparison.

(** One row enters its group; groups are kept in ascending key order
    ([groupby] sorts the group keys), rows of a group in row order. *)
Fixpoint add_row (k : K) (v : V) (groups : list (K * list V))
  : list (K * list V) :=
  match groups with
  | [] => [(k, [v])]
  | (k', vs) :: rest =>
      match cmp k k' with
      | Eq => (k', vs ++ [v]) :: rest
      | Lt => (k, [v]) :: groups
      | Gt => (k', vs) :: add_row k v rest
      end
  end.

Definition groupby (keys : Pandas.Series K) (vals : Pandas.Series V)
  : list (K * list V) :=
  fold_left (fun groups kv => add_row (fst kv) (snd kv) groups)
    (combine keys vals) [].
End Groups.

(** [.mean()] and [.sum()] of the groups. *)
Definition mean {K : Type} (groups : list (K * list Q))
  : list (K * Pandas.float64) :=
  map (fun g => (fst g, Pandas.mean (snd g))) groups.

Definition sum {K : Type} (groups : list (K * list Q))
  : list (K * Pandas.float64) :=
  map (fun g => (fst g, Pandas.Fin (Pandas.sum (snd g)))) groups.

(** [s.reindex(labels)]: the labels in the given order, each with its
    value in [s], NaN for a label that [s] does not have. *)
Fixpoint lookup (k : string) (s : list (string * Pandas.float64))
  : Pandas.float64 :=
  match s with
  | [] => Pandas.NaN
  | (k', v) :: s' => if String.eqb k k' then v else lookup k s'
  end.

Definition reindex (s : list (string * Pandas.float64))
  (labels : list string) : list (string * Pandas.float64) :=
  map (fun k => (k, lookup k s)) labels.

End GroupBy.

(** Group keys of the year-and-month grouping: by year, then by month
    name as a string. *)
Definition compare_year_month (k1 k2 : Z * string) : comparison :=
  match Z.compare (fst k1) (fst k2) with
  | Eq => String.compare (snd k1) (snd k2)
  | c => c
  end.

Definition order : list string :=
  ["January"; "February"; "March"; "April"; "May"; "June"; "July";
   "August"; "September"; "October"; "November"; "December"]%string.

(** [filtered_df.groupby(['arrival_date_year','arrival_date_month'])
      ['adr'].mean().reset_index()] *)
Definition monthly_adr (t : list Booking)
  : list ((Z * string) * Pandas.float64) :=
  GroupBy.mean
    (GroupBy.groupby compare_year_month
       (map (fun r => (arrival_date_year r, arrival_date_month r)) t)
       (col adr t)).

(** [filtered_df.groupby(['arrival_date_month'])['is_canceled'].mean()
      .reindex(order)] *)
Definition month_cancel (t : list Booking)
  : list (string * Pandas.float64) :=
  GroupBy.reindex
    (GroupBy.mean
       (GroupBy.groupby String.compare
          (col arrival_date_month t) (Pandas.of_ints (col is_canceled t))))
    order.

(** [groupby('arrival_date_month')["revenue"].sum().reindex(order)] over
    the frame's month column and its revenue column. *)
Definition revenue_month_of (month_col : Pandas.Series string)
  (revenue_col : Pandas.Series Q) : list (string * Pandas.float64) :=
  GroupBy.reindex
    (GroupBy.sum (GroupBy.groupby String.compare month_col revenue_col))
    order.

(** Position of a month name in the calendar. *)
Fixpoint index_of (m : string) (l : list string) : option nat :=
  match l with
  | [] => None
  | x :: l' =>
      if String.eqb m x then Some O
      else option_map S (index_of m l')
  end.

(** Month names listed in calendar order: every name is a month and the
    calendar positions strictly increase. *)
Fixpoint calendar_ordered_from (lo : nat) (ms : list string) : bool :=
  match ms with
  | [] => true
  | m :: ms' =>
      match index_of m order with
      | Some i => (lo <=? i)%nat && calendar_ordered_from (S i) ms'
      | None => false
      end
  end.

Definition calendar_ordered (ms : list string) : bool :=
  calendar_ordered_from 0 ms.

(** ** Frames as objects (app.py, lines 40-46 and 196) *)

(** A frame: the rows read from the CSV and the numeric columns added
    to it later by [frame[name] = series], in order of creation. *)
Record DataFrame : Type := mkFrame {
  rows : list Booking;
  added : list (string * Pandas.Series Q)
}.

(** [frame[mask]]: a new frame with the selected rows of every column. *)
Definition getitem_mask (d : DataFrame) (mask : Pandas.Series bool)
  : DataFrame :=
  {| rows := Pandas.select (rows d) mask;
     added := map (fun c => (fst c, Pandas.select (snd c) mask)) (added d) |}.

(** [frame[name] = series]: the column is replaced when the frame has
    it, appended otherwise. *)
Fixpoint set_column (name : string) (s : Pandas.Series Q)
  (cols : list (string * Pandas.Series Q)) : list (string * Pandas.Series Q) :=
  match cols with
  | [] => [(name, s)]
  | (n, s') :: cols' =>
      if String.eqb name n then (n, s) :: cols'
      else (n, s') :: set_column name s cols'
  end.

Definition setitem (d : DataFrame) (name : string) (s : Pandas.Series Q)
  : DataFrame :=
  {| rows := rows d; added := set_column name s (added d) |}.

(** [frame[name]] for an added column; [None] is KeyError. *)
Fixpoint get_column (name : string) (cols : list (string * Pandas.Series Q))
  : option (Pandas.Series Q) :=
  match cols with
  | [] => None
  | (n, s) :: cols' =>
      if String.eqb name n then Some s else get_column name cols'
  end.

(** Names of the added columns of a frame. *)
Definition added_names (d : DataFrame) : list string := map fst (added d).

(** The object store: Python variables hold references to frames. *)
Definition ref : Type := nat.
Definition heap : Type := list DataFrame.

Definition deref (h : heap) (p : ref) : option DataFrame := nth_error h p.

Definition alloc (h : heap) (d : DataFrame) : heap * ref :=
  (h ++ [d], List.length h).

Fixpoint update (h : heap) (p : ref) (d : DataFrame) : heap :=
  match h, p with
  | [], _ => []
  | _ :: h', O => d :: h'
  | x :: h', S p' => x :: update h' p' d
  end.

(** ** Most frequent values (app.py, lines 84 and 238) *)

Module ValueCounts.

Section Counts.
Context {A : Type}.
Variable eqb : A -> A -> bool.

(** The tally of [value_counts]: one entry per distinct value, in
    order of first appearance. *)
Fixpoint bump (x : A) (tally : list (A * nat)) : list (A * nat) :=
  match tally with
  | [] => [(x, 1%nat)]
  | (y, n) :: tally' =>
      if eqb x y then (y, S n) :: tally' else (y, n) :: bump x tally'
  end.

Definition tally (s : Pandas.Series A) : list (A * nat) :=
  fold_left (fun acc x => bump x acc) s [].

(** [value_counts] orders the tally with [sort_values(ascending=False)];
    the sorting routine belongs to the library and is a parameter. *)
Variable sort_values : list (A * nat) -> list (A * nat).

Definition value_counts (s : Pandas.Series A) : list (A * nat) :=
  sort_values (tally s).

(** [s.value_counts().head(n)] *)
Definition top_n (n : nat) (s : Pandas.Series A) : list (A * nat) :=
  firstn n (value_counts s).
End Counts.

(** Counts from the largest down. *)
Definition descending {A : Type} (l : list (A * nat)) : Prop :=
  StronglySorted (fun p q => (snd q <= snd p)%nat) l.

(** What a sorting routine guarantees: the same entries, largest count
    first. *)
Definition sorts_descending {A : Type}
  (sort_values : list (A * nat) -> list (A * nat)) : Prop :=
  forall l, Permutation (sort_values l) l /\ descending (sort_values l).

(** It is stable when entries of one count keep their order. *)
Definition stable {A : Type}
  (sort_values : list (A * nat) -> list (A * nat)) : Prop :=
  forall l c,
    filter (fun p => Nat.eqb (snd p) c) (sort_values l)
    = filter (fun p => Nat.eqb (snd p) c) l.

(** A stable sorting routine: insertion from the right, an entry going
    in front of the first entry that does not exceed it. *)
Fixpoint insert_desc {A : Type} (p : A * nat) (l : list (A * nat))
  : list (A * nat) :=
  match l with
  | [] => [p]
  | q :: l' =>
      if (snd q <=? snd p)%nat then p :: l else q :: insert_desc p l'
  end.

Definition insertion_sort {A : Type} (l : list (A * nat))
  : list (A * nat) :=
  fold_right insert_desc [] l.

End ValueCounts.

(** ** Selections compared *)

(** The adr test of the filter alone. *)
Definition in_range (bounds : Z * Z) (r : Booking) : bool :=
  Qle_bool (inject_Z (fst bounds)) (adr r)
  && Qle_bool (adr r) (inject_Z (snd bounds)).

(** A selection is narrower than another when each of its sets is
    included in the other's and its adr range lies within the other's. *)
Definition narrower (sel sel' : Selection) : Prop :=
  incl (hotel_types sel) (hotel_types sel') /\
  incl (years sel) (years sel') /\
  incl (months sel) (months sel') /\
  incl (customer_types sel) (customer_types sel') /\
  (fst (adr_range sel') <= fst (adr_range sel))%Z /\
  (snd (adr_range sel) <= snd (adr_range sel'))%Z.

(** ** Reading rows and groups *)

(** A booking whose assigned room type differs from the reserved one. *)
Definition room_changed (r : Booking) : bool :=
  negb (String.eqb (assigned_room_type r) (reserved_room_type r)).

Definition in_month (m : string) (r : Booking) : bool :=
  String.eqb (arrival_date_month r) m.

Definition in_year_month (y : Z) (m : string) (r : Booking) : bool :=
  Z.eqb (arrival_date_year r) y && String.eqb (arrival_date_month r) m.

Definition same_key {K : Type} (cmp : K -> K -> comparison) (k k' : K)
  : bool :=
  match cmp k k' with Eq => true | _ => false end.

(** The values of the rows that carry key [k], in row order. *)
Definition rows_with_key {K V : Type} (cmp : K -> K -> comparison) (k : K)
  (kvs : list (K * V)) : list V :=
  map snd (filter (fun kv => same_key cmp (fst kv) k) kvs).

(** The values grouped under key [k]; none when no group has that key. *)
Definition group_of {K V : Type} (cmp : K -> K -> comparison) (k : K)
  (groups : list (K * list V)) : list V :=
  match find (fun g => same_key cmp (fst g) k) groups with
  | Some g => snd g
  | None => []
  end.

Definition keys_ascending {K V : Type} (cmp : K -> K -> comparison)
  (groups : list (K * V)) : Prop :=
  StronglySorted (fun g1 g2 => cmp (fst g1) (fst g2) = Lt) groups.

Definition in_segment (seg : string) (r : Booking) : bool :=
  String.eqb (market_segment r) seg.

(** The revenue bar of month [m]: NaN when no booking arrives in it. *)
Definition month_revenue (t : list Booking) (m : string) : Pandas.float64 :=
  match filter (in_month m) t with
  | [] => Pandas.NaN
  | rs => Pandas.Fin (total_revenue rs)
  end.

(** ** Further charts (app.py, lines 84, 159, 164-166, 206, 238) *)

(** [filtered_df.groupby('market_segment')["revenue"].sum()
      .sort_values(ascending=False)], the sorting routine of the library
    being a parameter. *)
Definition revenue_segment
  (sort_values : list (string * Pandas.float64)
                 -> list (string * Pandas.float64))
  (segment_col : Pandas.Series string) (revenue_col : Pandas.Series Q)
  : list (string * Pandas.float64) :=
  sort_values
    (GroupBy.sum (GroupBy.groupby String.compare segment_col revenue_col)).

(** [filtered_df['country'].value_counts().head(10)] *)
Definition top_countries
  (sort_values : list (string * nat) -> list (string * nat))
  (t : list Booking) : list (string * nat) :=
  ValueCounts.top_n String.eqb sort_values 10 (col country t).

(** [filtered_df['agent'].value_counts().head(10)] *)
Definition top_agents (sort_values : list (Z * nat) -> list (Z * nat))
  (t : list Booking) : list (Z * nat) :=
  ValueCounts.top_n Z.eqb sort_values 10 (col agent t).

(** [filtered_df["market_segment"].value_counts().index], the order of
    the bars of the market segment chart. *)
Definition segment_order
  (sort_values : list (string * nat) -> list (string * nat))
  (t : list Booking) : list string :=
  map fst (ValueCounts.value_counts String.eqb sort_values
             (col market_segment t)).

(** [repeat_counts = filtered_df['is_repeated_guest'].value_counts()] and
    the two arrays handed to the bar plot,
    [x=['New', 'Repeat'], y=repeat_counts.values]. *)
Definition repeat_counts (sort_values : list (Z * nat) -> list (Z * nat))
  (is_repeated_guest : Pandas.Series Z) : list (Z * nat) :=
  ValueCounts.value_counts Z.eqb sort_values is_repeated_guest.

Definition repeat_bars (sort_values : list (Z * nat) -> list (Z * nat))
  (is_repeated_guest : Pandas.Series Z) : list string * list nat :=
  (["New"; "Repeat"]%string,
   map snd (repeat_counts sort_values is_repeated_guest)).

(** Number of rows of a Series that hold the value [x]. *)
Definition occurrences {A : Type} (eqb : A -> A -> bool) (x : A)
  (s : Pandas.Series A) : nat :=
  List.length (filter (eqb x) s).

(** A sorting routine for the sums by segment: insertion, largest sum
    first, NaN last. *)
Definition float_leb (x y : Pandas.float64) : bool :=
  match x, y with
  | Pandas.Fin a, Pandas.Fin b => Qle_bool a b
  | Pandas.NaN, _ => true
  | Pandas.Fin _, Pandas.NaN => false
  end.

Fixpoint insert_by_sum (p : string * Pandas.float64)
  (l : list (string * Pandas.float64)) : list (string * Pandas.float64) :=
  match l with
  | [] => [p]
  | q :: l' =>
      if float_leb (snd q) (snd p) then p :: l else q :: insert_by_sum p l'
  end.

Definition sort_by_sum (l : list (string * Pandas.float64))
  : list (string * Pandas.float64) :=
  fold_right insert_by_sum [] l.

(** The count a tally holds for the value [x]; 0 when it has none. *)
Fixpoint count_in {A : Type} (eqb : A -> A -> bool) (x : A)
  (tally : list (A * nat)) : nat :=
  match tally with
  | [] => 0
  | (y, n) :: tally' => if eqb x y then n else count_in eqb x tally'
  end.

(** ** The script from the filter on (app.py, lines 40-202) *)

(** The numbers that the four metrics of the overview format (lines
    64-67) and the series of the chart of line 107; the text a metric
    shows is the formatting of its number, which is not modelled. *)
Record Early : Type := mkEarly {
  bookings_number : nat;
  avg_adr_number : Pandas.float64;
  revenue_number : Q;
  cancellation_number : Pandas.float64;
  monthly_adr_series : list ((Z * string) * Pandas.float64)
}.

(** What is computed after the repeat guest chart (lines 171-197). *)
Record Late : Type := mkLate {
  upgrade_rate_number : Pandas.float64;
  month_cancel_series : list (string * Pandas.float64);
  revenue_month_series : list (string * Pandas.float64)
}.

(** A run either reaches the end of the part modelled or stops with an
    exception at a line of the script. *)
Inductive Outcome : Type :=
| Finished (late : Late)
| Raised (line : nat).

(** What is known of [sns.barplot(x=..., y=...)] on two arrays: it draws
    when they have the same length and raises ValueError when their
    lengths differ and [y] is not empty. *)
Definition checks_lengths (barplot : list string -> list nat -> bool)
  : Prop :=
  (forall x y, List.length x = List.length y -> barplot x y = true)
  /\ (forall x y,
         List.length x <> List.length y -> y <> [] -> barplot x y = false).

(** A bar plot that raises whenever the lengths differ. *)
Definition same_length (x : list string) (y : list nat) : bool :=
  Nat.eqb (List.length x) (List.length y).

Definition bind {A B : Type} (x : option A) (f : A -> option B) : option B :=
  match x with Some a => f a | None => None end.

Notation "x <- e ;; k" := (bind e (fun x => k))
  (at level 61, e at next level, right associativity).

(** The script from the filter to the revenue by month. [df] is the
    reference held by the variable [df]; [sort_values] is the sorting
    routine of [value_counts] and [barplot] tells whether the bar plot of
    line 166 draws ([true]) or raises. The result gives the store when
    the run ends, the reference held by [filtered_df] and what was
    computed; it is [None] only when [df] refers to no frame. *)
Definition script (sort_values : list (Z * nat) -> list (Z * nat))
  (barplot : list string -> list nat -> bool)
  (h0 : heap) (df : ref) (sel : Selection)
  : option (heap * ref * Early * Outcome) :=
  d <- deref h0 df ;;
  let (h1, filtered_df) :=
    alloc h0 (getitem_mask d (filter_mask sel (rows d))) in
  f <- deref h1 filtered_df ;;
  let t := rows f in
  let early :=
    {| bookings_number := total_bookings t;
       avg_adr_number := avg_adr t;
       revenue_number := total_revenue t;
       cancellation_number := cancellation_rate t;
       monthly_adr_series := monthly_adr t |} in
  let bars := repeat_bars sort_values (col is_repeated_guest t) in
  if barplot (fst bars) (snd bars) then
    let h2 :=
      update h1 filtered_df (setitem f "revenue" (revenue_series t)) in
    f' <- deref h2 filtered_df ;;
    revenue <- get_column "revenue" (added f') ;;
    Some (h2, filtered_df, early,
          Finished
            {| upgrade_rate_number := upgrade_rate t;
               month_cancel_series := month_cancel t;
               revenue_month_series :=
                 revenue_month_of (col arrival_date_month (rows f'))
                   revenue |})
  else Some (h1, filtered_df, early, Raised 166).

(** The tables are left as they were when, after the run, the source
    frame is the one it was and the filtered frame is the one the filter
    produced. *)
Definition tables_unchanged (sort_values : list (Z * nat) -> list (Z * nat))
  (barplot : list string -> list nat -> bool)
  (h0 : heap) (df : ref) (sel : Selection) : Prop :=
  match script sort_values barplot h0 df sel, deref h0 df with
  | Some (h, filtered_df, _, _), Some d =>
      deref h df = Some d /\
      deref h filtered_df = Some (getitem_mask d (filter_mask sel (rows d)))
  | _, _ => False
  end.

(** The distinct values of the [is_repeated_guest] column. *)
Definition guest_flags (t : list Booking) : list Z :=
  Pandas.unique Z.eqb (col is_repeated_guest t).

(** ** Loading (app.py, lines 11-18) *)

Module Loader.

(** [s.fillna(value)] *)
Definition fillna {A : Type} (s : Pandas.Series (option A)) (value : A)
  : Pandas.Series A :=
  map (fun cell => match cell with Some a => a | None => value end) s.

(** The four columns that [load_data] fills, as read from the CSV (a
    missing cell is [None]) and as returned. *)
Record RawColumns : Type := mkRaw {
  raw_children : Pandas.Series (option Q);
  raw_country : Pandas.Series (option string);
  raw_agent : Pandas.Series (option Z);
  raw_company : Pandas.Series (option Z)
}.

Record FilledColumns : Type := mkFilled {
  children : Pandas.Series Q;
  country : Pandas.Series string;
  agent : Pandas.Series Z;
  company : Pandas.Series Z
}.

Definition load_data (raw : RawColumns) : FilledColumns :=
  {| children := fillna (raw_children raw) 0;
     country := fillna (raw_country raw) "Unknown"%string;
     agent := fillna (raw_agent raw) (-1)%Z;
     company := fillna (raw_company raw) (-1)%Z |}.

(** Cells of a raw column that are missing, and cells that hold [x]. *)
Definition missing {A : Type} (s : Pandas.Series (option A)) : nat :=
  List.length
    (filter (fun cell => match cell with None => true | Some _ => false end)
       s).

Definition holding {A : Type} (eqb : A -> A -> bool) (x : A)
  (s : Pandas.Series (option A)) : nat :=
  List.length
    (filter (fun cell => match cell with Some a => eqb x a | None => false end)
       s).

End Loader.

(** ** Sample tables *)

Module Sample.

Local Open Scope string_scope.

Definition booking (h : string) (y : Z) (m : string) (a : Q) : Booking :=
  {| hotel := h; arrival_date_year := y; arrival_date_month := m;
     customer_type := "Transient"; adr := a; is_canceled := 0;
     stays_in_week_nights := 2; stays_in_weekend_nights := 1;
     country := "PRT"; agent := 9; market_segment := "Direct";
     reserved_room_type := "A"; assigned_room_type := "A";
     is_repeated_guest := 0 |}.

(** Two bookings of one year, January before April. *)
Definition jan_apr : list Booking :=
  [booking "City Hotel" 2021 "January" 100;
   booking "City Hotel" 2021 "April" 80].

(** The largest adr, 200.5, is not an integer. *)
Definition fractional : list Booking :=
  [booking "City Hotel" 2021 "January" 100;
   booking "Resort Hotel" 2022 "April" (401 # 2)].

Definition everything : Selection :=
  {| hotel_types := ["City Hotel"; "Resort Hotel"];
     years := [2021; 2022]%Z;
     months := ["January"; "April"];
     customer_types := ["Transient"];
     adr_range := (0, 500)%Z |}.

Definition no_hotel : Selection :=
  {| hotel_types := [];
     years := [2021; 2022]%Z;
     months := ["January"; "April"];
     customer_types := ["Transient"];
     adr_range := (0, 500)%Z |}.

Definition inverted : Selection :=
  {| hotel_types := ["City Hotel"; "Resort Hotel"];
     years := [2021; 2022]%Z;
     months := ["January"; "April"];
     customer_types := ["Transient"];
     adr_range := (200, 50)%Z |}.

Definition full_range : Selection :=
  {| hotel_types := ["City Hotel"; "Resort Hotel"];
     years := [2021; 2022]%Z;
     months := ["January"; "April"];
     customer_types := ["Transient"];
     adr_range := (100, 200)%Z |}.

End Sample.

(** Further tables. *)
Module Cases.

Local Open Scope string_scope.

(** The least adr, -6.38, is negative and not an integer. *)
Definition negative_rate : list Booking :=
  [Sample.booking "City Hotel" 2021 "January" (- (638 # 100));
   Sample.booking "Resort Hotel" 2022 "April" 120].

(** Whole-number rates. *)
Definition whole : list Booking :=
  [Sample.booking "City Hotel" 2022 "March" 75;
   Sample.booking "Resort Hotel" 2021 "April" 120;
   Sample.booking "City Hotel" 2021 "March" 60].

Definition city_only : Selection :=
  {| hotel_types := ["City Hotel"];
     years := [2021]%Z;
     months := ["January"; "April"];
     customer_types := ["Transient"];
     adr_range := (50, 150)%Z |}.

(** Bookings that differ in country, market segment and agent. *)
Definition guest (c seg : string) (a : Z) : Booking :=
  {| hotel := "City Hotel"; arrival_date_year := 2021;
     arrival_date_month := "May"; customer_type := "Transient";
     adr := 90; is_canceled := 0;
     stays_in_week_nights := 1; stays_in_weekend_nights := 0;
     country := c; agent := a; market_segment := seg;
     reserved_room_type := "A"; assigned_room_type := "D";
     is_repeated_guest := 0 |}.

Definition guests : list Booking :=
  [guest "GBR" "Direct" 9; guest "PRT" "Online TA" (-1);
   guest "PRT" "Online TA" 9; guest "FRA" "Online TA" 240].

(** An [is_repeated_guest] column with four repeated guests and two new
    ones. *)
Definition mostly_repeated : Pandas.Series Z := [1; 0; 1; 1; 0; 1]%Z.

(** Raw columns of four rows with missing cells. *)
Definition raw : Loader.RawColumns :=
  {| Loader.raw_children := [Some 0; None; Some 2; Some 1];
     Loader.raw_country := [Some "PRT"; None; Some "Unknown"; None];
     Loader.raw_agent := [Some 9; None; None; Some (-1)]%Z;
     Loader.raw_company := [None; None; Some 40; None]%Z |}.

(** A new guest and a repeated one. *)
Definition repeated (r : Booking) : Booking :=
  {| hotel := hotel r; arrival_date_year := arrival_date_year r;
     arrival_date_month := arrival_date_month r;
     customer_type := customer_type r; adr := adr r;
     is_canceled := is_canceled r;
     stays_in_week_nights := stays_in_week_nights r;
     stays_in_weekend_nights := stays_in_weekend_nights r;
     country := country r; agent := agent r;
     market_segment := market_segment r;
     reserved_room_type := reserved_room_type r;
     assigned_room_type := assigned_room_type r;
     is_repeated_guest := 1 |}.

Definition new_and_repeated : list Booking :=
  [Sample.booking "City Hotel" 2021 "January" 100;
   repeated (Sample.booking "City Hotel" 2021 "April" 80)].

End Cases.

(** * Properties *)

(** *** The mask, row by row *)

Lemma existsb_In_string (x : string) (l : list string) :
  existsb (String.eqb x) l = true <-> In x l.
Proof.
  rewrite existsb_exists. split.
  - intros [y [Hy Heq]]. apply String.eqb_eq in Heq. now subst.
  - intros H. exists x. split; [assumption | apply String.eqb_refl].
Qed.

Lemma existsb_In_Z (x : Z) (l : list Z) :
  existsb (Z.eqb x) l = true <-> In x l.
Proof.
  rewrite existsb_exists. split.
  - intros [y [Hy Heq]]. apply Z.eqb_eq in Heq. now subst.
  - intros H. exists x. split; [assumption | apply Z.eqb_refl].
Qed.

Lemma retainedb_spec (sel : Selection) (r : Booking) :
  retainedb sel r = true <-> retained sel r.
Proof.
  unfold retainedb, retained.
  rewrite !andb_true_iff, !existsb_In_string, existsb_In_Z, !Qle_bool_iff.
  tauto.
Qed.

Lemma filter_mask_cons (sel : Selection) (r : Booking) (df : list Booking) :
  filter_mask sel (r :: df) = retainedb sel r :: filter_mask sel df.
Proof. reflexivity. Qed.

Lemma filtered_rows_filter (sel : Selection) (df : list Booking) :
  filtered_rows sel df = filter (retainedb sel) df.
Proof.
  unfold filtered_rows.
  induction df as [| r df IH]; [reflexivity |].
  rewrite filter_mask_cons. simpl. now rewrite IH.
Qed.

Lemma subseq_filter {A : Type} (f : A -> bool) (l : list A) :
  subseq (filter f l) l.
Proof.
  induction l as [| x l IH]; simpl.
  - constructor.
  - destruct (f x); now constructor.
Qed.

Lemma filter_all_false {A : Type} (f : A -> bool) (l : list A) :
  (forall x, f x = false) -> filter f l = [].
Proof.
  intros H. induction l as [| x l IH]; simpl; [reflexivity |].
  now rewrite H.
Qed.

(** *** Claims about the filter *)

(** C1. A record is in the filtered table exactly when it is a record of
    the source table that passes all five tests (hotel, year, month and
    customer type in the selected sets, adr within the inclusive range);
    the filtered table is no longer than the source table. *)
Theorem filter_conjunction (sel : Selection) (df : list Booking) :
  (forall r, In r (filtered_rows sel df) <-> In r df /\ retained sel r)
  /\ (List.length (filtered_rows sel df) <= List.length df)%nat.
Proof.
  rewrite filtered_rows_filter. split.
  - intros r. rewrite filter_In, retainedb_spec. reflexivity.
  - apply filter_length_le.
Qed.

Lemma filtered_rows_bound (sel : Selection) (df : list Booking) (r : Booking) :
  In r (filtered_rows sel df) ->
  inject_Z (fst (adr_range sel)) <= adr r <= inject_Z (snd (adr_range sel)).
Proof.
  rewrite filtered_rows_filter, filter_In, retainedb_spec.
  intros [_ H]. apply H.
Qed.

(** C5. When one of the four selection sets is empty, no record of any
    table is retained: an empty selection matches nothing. *)
Theorem empty_selection_matches_nothing (sel : Selection) (df : list Booking) :
  hotel_types sel = [] \/ years sel = [] \/ months sel = []
    \/ customer_types sel = [] ->
  filtered_rows sel df = [].
Proof.
  intros H. rewrite filtered_rows_filter. apply filter_all_false.
  intros r. unfold retainedb.
  destruct H as [H | [H | [H | H]]]; rewrite H; simpl;
    rewrite ?andb_false_r; reflexivity.
Qed.

(** C6. When the lower bound of the adr range is above its upper bound,
    the filter returns the table without rows, whatever the table and the
    other selections are; the filter is a total function, so no error is
    raised. *)
Theorem inverted_range_matches_nothing (sel : Selection) (df : list Booking) :
  (snd (adr_range sel) < fst (adr_range sel))%Z ->
  filtered_rows sel df = [].
Proof.
  intros Hinv. rewrite filtered_rows_filter. apply filter_all_false.
  intros r. apply not_true_is_false. rewrite retainedb_spec.
  intros (_ & _ & _ & _ & Hlo & Hhi).
  assert (Hle : inject_Z (fst (adr_range sel))
                <= inject_Z (snd (adr_range sel)))
    by (eapply Qle_trans; eassumption).
  rewrite <- Zle_Qle in Hle. lia.
Qed.

(** C9. The filtered table lists the retained records in the order they
    have in the source table: it is the source table with the rejected
    records struck out. *)
Theorem filter_stable (sel : Selection) (df : list Booking) :
  filtered_rows sel df = filter (retainedb sel) df
  /\ subseq (filtered_rows sel df) df.
Proof.
  split.
  - apply filtered_rows_filter.
  - rewrite filtered_rows_filter. apply subseq_filter.
Qed.

(** *** The slider bounds *)

Lemma fold_max_upper (s : list Q) (x : Q) :
  x <= fold_left Qmax s x /\ forall y, In y s -> y <= fold_left Qmax s x.
Proof.
  revert x. induction s as [| a s IH]; intros x; simpl.
  - split; [apply Qle_refl | contradiction].
  - destruct (IH (Qmax x a)) as [H1 H2]. split.
    + eapply Qle_trans; [apply Q.le_max_l | exact H1].
    + intros y [<- | Hy].
      * eapply Qle_trans; [apply Q.le_max_r | exact H1].
      * now apply H2.
Qed.

Lemma fold_min_lower (s : list Q) (x : Q) :
  fold_left Qmin s x <= x /\ forall y, In y s -> fold_left Qmin s x <= y.
Proof.
  revert x. induction s as [| a s IH]; intros x; simpl.
  - split; [apply Qle_refl | contradiction].
  - destruct (IH (Qmin x a)) as [H1 H2]. split.
    + eapply Qle_trans; [exact H1 | apply Q.le_min_l].
    + intros y [<- | Hy].
      * eapply Qle_trans; [exact H1 | apply Q.le_min_r].
      * now apply H2.
Qed.

Lemma fold_max_attained (s : list Q) (x : Q) :
  In (fold_left Qmax s x) (x :: s).
Proof.
  revert x. induction s as [| a s IH]; intros x; simpl.
  - now left.
  - destruct (IH (Qmax x a)) as [H | H].
    + rewrite <- H. unfold Qmax, GenericMinMax.gmax.
      destruct (x ?= a); auto.
    + now right; right.
Qed.

Lemma fold_min_attained (s : list Q) (x : Q) :
  In (fold_left Qmin s x) (x :: s).
Proof.
  revert x. induction s as [| a s IH]; intros x; simpl.
  - now left.
  - destruct (IH (Qmin x a)) as [H | H].
    + rewrite <- H. unfold Qmin, GenericMinMax.gmin.
      destruct (x ?= a); auto.
    + now right; right.
Qed.

(** [s.max()] is the largest value of a Series that has one. *)
Lemma max_spec (s : Pandas.Series Q) (m : Q) :
  Pandas.max s = Pandas.Fin m ->
  In m s /\ forall y, In y s -> y <= m.
Proof.
  destruct s as [| x s]; simpl; [discriminate |].
  intros [= <-]. split.
  - apply fold_max_attained.
  - destruct (fold_max_upper s x) as [H1 H2].
    intros y [<- | Hy]; [exact H1 | now apply H2].
Qed.

Lemma min_spec (s : Pandas.Series Q) (m : Q) :
  Pandas.min s = Pandas.Fin m ->
  In m s /\ forall y, In y s -> m <= y.
Proof.
  destruct s as [| x s]; simpl; [discriminate |].
  intros [= <-]. split.
  - apply fold_min_attained.
  - destruct (fold_min_lower s x) as [H1 H2].
    intros y [<- | Hy]; [exact H1 | now apply H2].
Qed.

(** C10. The bounds offered by the slider are the least and the largest
    adr of the table, each cut to its integer part; with the upper bound
    left at its default, a record whose adr is above that integer is not
    in the filtered table. *)
Theorem slider_bounds_truncated (df : list Booking) (lo hi : Z) :
  adr_bounds df = Some (lo, hi) ->
  (exists mn mx : Q,
      (In mn (col adr df) /\ forall r, In r df -> mn <= adr r) /\
      (In mx (col adr df) /\ forall r, In r df -> adr r <= mx) /\
      lo = Py.truncate mn /\ hi = Py.truncate mx)
  /\ (forall sel r,
         adr_range sel = (lo, hi) ->
         In r df -> inject_Z hi < adr r ->
         ~ In r (filtered_rows sel df)).
Proof.
  intros Hb. split.
  - unfold adr_bounds in Hb.
    destruct (Pandas.min (col adr df)) as [mn |] eqn:Hmin; [| discriminate].
    destruct (Pandas.max (col adr df)) as [mx |] eqn:Hmax; [| discriminate].
    simpl in Hb. injection Hb as <- <-.
    apply min_spec in Hmin. apply max_spec in Hmax.
    destruct Hmin as [Hmn1 Hmn2], Hmax as [Hmx1 Hmx2].
    exists mn, mx. repeat split; try assumption.
    + intros r Hr. apply Hmn2. unfold col. now apply in_map.
    + intros r Hr. apply Hmx2. unfold col. now apply in_map.
  - intros sel r Hrange _ Hlt Hin.
    apply filtered_rows_bound in Hin. rewrite Hrange in Hin. simpl in Hin.
    destruct Hin as [_ Hhi]. now apply Qlt_not_le in Hlt.
Qed.

(** *** Key figures *)

(** C2, as the script has it. On the table without rows the average adr,
    the cancellation rate and the upgrade rate are each pandas' NaN, the
    mean of no values; nothing replaces it before it reaches the widget. *)
Theorem empty_table_means_are_nan :
  avg_adr [] = Pandas.NaN
  /\ cancellation_rate [] = Pandas.NaN
  /\ upgrade_rate [] = Pandas.NaN.
Proof. repeat split. Qed.

(** C2, as stated, fails: none of the three aggregates is guarded on the
    table without rows. *)
Lemma empty_table_means_unguarded :
  ~ guarded avg_adr /\ ~ guarded cancellation_rate /\ ~ guarded upgrade_rate.
Proof. unfold guarded. repeat split; discriminate. Qed.

Lemma revenue_series_map (t : list Booking) :
  revenue_series t = map booking_revenue t.
Proof.
  unfold revenue_series, col, Pandas.of_ints.
  induction t as [| r t IH]; [reflexivity |].
  simpl. now rewrite IH.
Qed.

Lemma fold_left_Qplus_shift (l : list Q) (a : Q) :
  fold_left Qplus l a == a + fold_left Qplus l 0.
Proof.
  revert a. induction l as [| x l IH]; intros a; simpl.
  - now rewrite Qplus_0_r.
  - rewrite (IH (a + x)), (IH (0 + x)). ring.
Qed.


(** *** Month order of the grouped series *)

Lemma reindex_labels (s : list (string * Pandas.float64))
  (labels : list string) :
  map fst (GroupBy.reindex s labels) = labels.
Proof.
  unfold GroupBy.reindex. rewrite map_map. simpl. apply map_id.
Qed.

(** The cancellation rate by month and the revenue by month are listed
    January to December, whatever the table holds. *)
Lemma month_cancel_calendar (t : list Booking) :
  map fst (month_cancel t) = order
  /\ calendar_ordered (map fst (month_cancel t)) = true.
Proof.
  unfold month_cancel. rewrite reindex_labels. split; reflexivity.
Qed.

Lemma revenue_month_calendar (ms : Pandas.Series string)
  (revenue : Pandas.Series Q) :
  map fst (revenue_month_of ms revenue) = order
  /\ calendar_ordered (map fst (revenue_month_of ms revenue)) = true.
Proof.
  unfold revenue_month_of. rewrite reindex_labels. split; reflexivity.
Qed.

(** C4, where the script departs from it. The average adr by year and
    month keeps the order of [groupby], which sorts month names as
    strings: for a January and an April booking of one year, April is
    listed first, so the months are not in calendar order. *)
Theorem monthly_adr_sorted_as_strings :
  map fst (monthly_adr Sample.jan_apr)
    = [(2021%Z, "April"%string); (2021%Z, "January"%string)]
  /\ calendar_ordered (map (fun g => snd (fst g)) (monthly_adr Sample.jan_apr))
     = false.
Proof. split; reflexivity. Qed.

(** *** The frames in the store *)

Lemma deref_alloc_new (h : heap) (d : DataFrame) :
  deref (fst (alloc h d)) (snd (alloc h d)) = Some d.
Proof.
  unfold deref, alloc. simpl.
  rewrite nth_error_app2 by apply Nat.le_refl.
  now rewrite Nat.sub_diag.
Qed.

Lemma deref_alloc_old (h : heap) (d : DataFrame) (p : ref) :
  (p < List.length h)%nat -> deref (fst (alloc h d)) p = deref h p.
Proof.
  intros Hp. unfold deref, alloc. simpl. now apply nth_error_app1.
Qed.

Lemma deref_bound (h : heap) (p : ref) (d : DataFrame) :
  deref h p = Some d -> (p < List.length h)%nat.
Proof.
  intros H. apply nth_error_Some. unfold deref in H. congruence.
Qed.

Lemma update_last (h : heap) (x d : DataFrame) :
  update (h ++ [x]) (List.length h) d = h ++ [d].
Proof.
  induction h as [| y h IH]; simpl; [reflexivity |]. now rewrite IH.
Qed.

Lemma get_set_column (name : string) (s : Pandas.Series Q)
  (cols : list (string * Pandas.Series Q)) :
  get_column name (set_column name s cols) = Some s.
Proof.
  induction cols as [| [n s'] cols IH]; simpl.
  - now rewrite String.eqb_refl.
  - destruct (String.eqb name n) eqn:E; simpl; rewrite E;
      [reflexivity | exact IH].
Qed.


(** *** Most frequent values *)

Section TopN.
Context {A : Type}.
Variable eqb : A -> A -> bool.
Variable sort_values : list (A * nat) -> list (A * nat).
Hypothesis sort_values_ok : ValueCounts.sorts_descending sort_values.

Lemma in_firstn (n : nat) (l : list (A * nat)) (x : A * nat) :
  In x (firstn n l) -> In x l.
Proof.
  revert l. induction n as [| n IH]; intros [| y l]; simpl; try tauto.
  intros [H | H]; [now left | right; now apply IH].
Qed.

Lemma descending_firstn (n : nat) (l : list (A * nat)) :
  ValueCounts.descending l -> ValueCounts.descending (firstn n l).
Proof.
  intros H. revert n.
  induction H as [| p l Hl IH Hp]; intros [| n]; simpl; try constructor.
  - apply IH.
  - rewrite Forall_forall in *. intros q Hq.
    apply Hp. eapply in_firstn. exact Hq.
Qed.

(** Whatever the sorting routine does with equal counts, the most
    frequent values come largest count first, and there are [n] of them
    or, if fewer values occur, all of them. *)
Lemma top_n_descending (n : nat) (s : Pandas.Series A) :
  ValueCounts.descending (ValueCounts.top_n eqb sort_values n s)
  /\ List.length (ValueCounts.top_n eqb sort_values n s)
     = Nat.min n (List.length (ValueCounts.tally eqb s)).
Proof.
  unfold ValueCounts.top_n, ValueCounts.value_counts.
  destruct (sort_values_ok (ValueCounts.tally eqb s)) as [Hperm Hdesc].
  split.
  - now apply descending_firstn.
  - rewrite length_firstn. now rewrite (Permutation_length Hperm).
Qed.
End TopN.

Lemma insert_desc_perm {A : Type} (p : A * nat) (l : list (A * nat)) :
  Permutation (ValueCounts.insert_desc p l) (p :: l).
Proof.
  induction l as [| q l IH]; simpl; [reflexivity |].
  destruct (snd q <=? snd p)%nat; [reflexivity |].
  rewrite IH. apply perm_swap.
Qed.

Lemma insert_desc_descending {A : Type} (p : A * nat) (l : list (A * nat)) :
  ValueCounts.descending l ->
  ValueCounts.descending (ValueCounts.insert_desc p l).
Proof.
  unfold ValueCounts.descending.
  induction 1 as [| q l Hl IH Hq]; simpl.
  - repeat constructor.
  - destruct (snd q <=? snd p)%nat eqn:E.
    + apply Nat.leb_le in E. constructor.
      * now constructor.
      * constructor; [exact E |].
        rewrite Forall_forall in *. intros r Hr.
        specialize (Hq r Hr). simpl in *. lia.
    + apply Nat.leb_gt in E. constructor; [exact IH |].
      rewrite Forall_forall in *. intros r Hr.
      apply (Permutation_in _ (insert_desc_perm p l)) in Hr.
      destruct Hr as [<- | Hr]; [simpl; lia | now apply Hq].
Qed.

Lemma insert_desc_filter {A : Type} (c : nat) (p : A * nat)
  (l : list (A * nat)) :
  filter (fun q => Nat.eqb (snd q) c) (ValueCounts.insert_desc p l)
  = filter (fun q => Nat.eqb (snd q) c) (p :: l).
Proof.
  induction l as [| q l IH]; [reflexivity |].
  simpl. destruct (snd q <=? snd p)%nat eqn:E; [reflexivity |].
  apply Nat.leb_gt in E. simpl in *. rewrite IH.
  destruct (Nat.eqb (snd p) c) eqn:Ep; [| reflexivity].
  apply Nat.eqb_eq in Ep.
  assert (Eq : Nat.eqb (snd q) c = false) by (apply Nat.eqb_neq; lia).
  now rewrite Eq.
Qed.

(** The routine of [ValueCounts.insertion_sort] sorts and is stable. *)
Lemma insertion_sort_ok {A : Type} :
  ValueCounts.sorts_descending (@ValueCounts.insertion_sort A)
  /\ ValueCounts.stable (@ValueCounts.insertion_sort A).
Proof.
  split.
  - intros l. induction l as [| p l [IHp IHd]]; simpl.
    + split; [reflexivity | constructor].
    + split.
      * rewrite insert_desc_perm. now constructor.
      * now apply insert_desc_descending.
  - intros l c. induction l as [| p l IH]; [reflexivity |].
    simpl ValueCounts.insertion_sort. rewrite insert_desc_filter.
    simpl. now rewrite IH.
Qed.

(** *** The theorems at sample tables *)


(** The scenario of three bookings: hotel A in 2021 at 100, hotel A in
    2022 at 200, hotel B in 2021 at 50; selecting hotel A, both years and
    the range 0 to 150 keeps the first booking, whose average adr is 100. *)
Example scenario_three_bookings :
  let t := [Sample.booking "A" 2021 "January" 100;
            Sample.booking "A" 2022 "January" 200;
            Sample.booking "B" 2021 "January" 50] in
  let sel := {| hotel_types := ["A"%string]; years := [2021; 2022]%Z;
                months := ["January"%string];
                customer_types := ["Transient"%string];
                adr_range := (0, 150)%Z |} in
  filtered_rows sel t = [Sample.booking "A" 2021 "January" 100]
  /\ avg_adr (filtered_rows sel t) = Pandas.Fin (100 / 1).
Proof. split; reflexivity. Qed.

Lemma empty_selection_matches_nothing_witness :
  hotel_types Sample.no_hotel = []
  /\ filtered_rows Sample.no_hotel Sample.jan_apr = [].
Proof.
  split; [reflexivity |].
  apply (empty_selection_matches_nothing Sample.no_hotel Sample.jan_apr).
  left. reflexivity.
Defined.

Lemma inverted_range_matches_nothing_witness :
  (snd (adr_range Sample.inverted) < fst (adr_range Sample.inverted))%Z
  /\ filtered_rows Sample.inverted Sample.jan_apr = [].
Proof.
  split; [reflexivity |].
  apply (inverted_range_matches_nothing Sample.inverted Sample.jan_apr).
  reflexivity.
Defined.

Lemma slider_bounds_truncated_witness :
  adr_bounds Sample.fractional = Some (100, 200)%Z
  /\ default_selection Sample.fractional = Some Sample.full_range
  /\ In (Sample.booking "Resort Hotel" 2022 "April" (401 # 2))
        Sample.fractional
  /\ ~ In (Sample.booking "Resort Hotel" 2022 "April" (401 # 2))
          (filtered_rows Sample.full_range Sample.fractional).
Proof.
  split; [reflexivity |].
  split; [reflexivity |].
  split; [right; left; reflexivity |].
  apply (proj2 (slider_bounds_truncated Sample.fractional 100 200 eq_refl)
           Sample.full_range).
  - reflexivity.
  - right. left. reflexivity.
  - reflexivity.
Defined.


(** * Further properties of the script *)

(** *** The options of the sidebar *)

Section Unique.
Context {A : Type}.
Variable eqb : A -> A -> bool.
Hypothesis eqb_spec : forall x y, eqb x y = true <-> x = y.

Lemma existsb_eqb_In (x : A) (l : list A) :
  existsb (eqb x) l = true <-> In x l.
Proof.
  rewrite existsb_exists. split.
  - intros [y [Hy Heq]]. apply eqb_spec in Heq. now subst.
  - intros H. exists x. split; [assumption | now apply eqb_spec].
Qed.

Lemma unique_acc_In (seen : list A) (s : Pandas.Series A) (x : A) :
  In x (Pandas.unique_acc eqb seen s) <-> In x seen \/ In x s.
Proof.
  revert seen. induction s as [| y s IH]; intros seen; simpl.
  - rewrite <- in_rev. tauto.
  - destruct (existsb (eqb y) seen) eqn:E; rewrite IH.
    + apply existsb_eqb_In in E. split; [tauto |].
      intros [H | [<- | H]]; tauto.
    + simpl. tauto.
Qed.

Lemma unique_acc_NoDup (seen : list A) (s : Pandas.Series A) :
  NoDup seen -> NoDup (Pandas.unique_acc eqb seen s).
Proof.
  revert seen. induction s as [| y s IH]; intros seen Hnd; simpl.
  - now apply NoDup_rev.
  - destruct (existsb (eqb y) seen) eqn:E; apply IH; [assumption |].
    constructor; [| assumption].
    intros Hin. apply existsb_eqb_In in Hin. congruence.
Qed.

Lemma unique_spec (s : Pandas.Series A) :
  NoDup (Pandas.unique eqb s)
  /\ forall x, In x (Pandas.unique eqb s) <-> In x s.
Proof.
  unfold Pandas.unique. split.
  - apply unique_acc_NoDup. constructor.
  - intros x. rewrite unique_acc_In. simpl. tauto.
Qed.
End Unique.

Lemma insert_sorted_perm (x : Z) (l : list Z) :
  Permutation (insert_sorted x l) (x :: l).
Proof.
  induction l as [| y l IH]; simpl; [reflexivity |].
  destruct (x <=? y)%Z; [reflexivity |].
  rewrite IH. apply perm_swap.
Qed.

Lemma sorted_perm (l : list Z) : Permutation (sorted l) l.
Proof.
  induction l as [| x l IH]; simpl; [reflexivity |].
  rewrite insert_sorted_perm. now constructor.
Qed.

Lemma insert_sorted_ascending (x : Z) (l : list Z) :
  StronglySorted Z.le l -> StronglySorted Z.le (insert_sorted x l).
Proof.
  induction 1 as [| y l Hl IH Hy]; simpl.
  - repeat constructor.
  - destruct (x <=? y)%Z eqn:E.
    + apply Z.leb_le in E. constructor; [now constructor |].
      constructor; [exact E |].
      rewrite Forall_forall in *. intros z Hz. specialize (Hy z Hz). lia.
    + apply Z.leb_gt in E. constructor; [exact IH |].
      rewrite Forall_forall in *. intros z Hz.
      apply (Permutation_in _ (insert_sorted_perm x l)) in Hz.
      destruct Hz as [<- | Hz]; [lia | now apply Hy].
Qed.

Lemma sorted_ascending (l : list Z) : StronglySorted Z.le (sorted l).
Proof.
  induction l as [| x l IH]; simpl; [constructor |].
  now apply insert_sorted_ascending.
Qed.

Lemma ascending_strict (l : list Z) :
  StronglySorted Z.le l -> NoDup l -> StronglySorted Z.lt l.
Proof.
  induction 1 as [| x l Hl IH Hx]; intros Hnd; [constructor |].
  inversion Hnd as [| ? ? Hnotin Hnd']; subst.
  constructor; [now apply IH |].
  rewrite Forall_forall in *. intros z Hz.
  specialize (Hx z Hz).
  assert (x <> z) by (intros ->; contradiction). lia.
Qed.


Lemma default_options_spec (df : list Booking) (sel : Selection) :
  default_selection df = Some sel ->
  (NoDup (hotel_types sel)
   /\ forall h, In h (hotel_types sel) <-> In h (col hotel df))
  /\ (StronglySorted Z.lt (years sel)
      /\ forall y, In y (years sel) <-> In y (col arrival_date_year df))
  /\ (NoDup (months sel)
      /\ forall m, In m (months sel) <-> In m (col arrival_date_month df))
  /\ (NoDup (customer_types sel)
      /\ forall c, In c (customer_types sel) <-> In c (col customer_type df)).
Proof.
  unfold default_selection.
  destruct (adr_bounds df) as [bounds |]; [| discriminate].
  destruct (fst bounds <? snd bounds)%Z; [| discriminate].
  intros [= <-]. simpl.
  pose proof (unique_spec String.eqb String.eqb_eq) as Hs.
  pose proof (unique_spec Z.eqb Z.eqb_eq (col arrival_date_year df))
    as [Hnd Hin].
  repeat split; try apply Hs.
  - apply ascending_strict; [apply sorted_ascending |].
    eapply Permutation_NoDup; [symmetry; apply sorted_perm | exact Hnd].
  - intros Hy. apply Hin.
    eapply Permutation_in; [apply sorted_perm | exact Hy].
  - intros Hy. apply Hin in Hy.
    eapply Permutation_in; [symmetry; apply sorted_perm | exact Hy].
Qed.

(** X2. The options offered by default: each multiselect lists the values of
    its column, each once, and the years in strictly ascending order. *)
Theorem default_options (df : list Booking) (sel : Selection) :
  default_selection df = Some sel ->
  (NoDup (hotel_types sel)
   /\ forall h, In h (hotel_types sel) <-> In h (col hotel df))
  /\ (StronglySorted Z.lt (years sel)
      /\ forall y, In y (years sel) <-> In y (col arrival_date_year df))
  /\ (NoDup (months sel)
      /\ forall m, In m (months sel) <-> In m (col arrival_date_month df))
  /\ (NoDup (customer_types sel)
      /\ forall c, In c (customer_types sel) <-> In c (col customer_type df)).
Proof. exact (default_options_spec df sel). Qed.

Lemma default_options_witness :
  default_selection Cases.whole
  = Some {| hotel_types := ["City Hotel"; "Resort Hotel"]%string;
            years := [2021; 2022]%Z;
            months := ["March"; "April"]%string;
            customer_types := ["Transient"%string];
            adr_range := (60, 120)%Z |}
  /\ StronglySorted Z.lt [2021; 2022]%Z.
Proof.
  split; [reflexivity |].
  exact (proj1 (proj1 (proj2
           (default_options Cases.whole _ eq_refl)))).
Defined.

(** *** [int] on the extreme rates *)

Lemma truncate_floor (q : Q) : 0 <= q -> Py.truncate q = Qfloor q.
Proof.
  intros H. destruct q as [n d]. unfold Py.truncate, Qfloor. simpl.
  apply Z.quot_div_nonneg; [| reflexivity].
  unfold Qle in H. simpl in H. lia.
Qed.

Lemma truncate_ceiling (q : Q) : q <= 0 -> Py.truncate q = Qceiling q.
Proof.
  intros H. destruct q as [n d].
  unfold Py.truncate, Qceiling, Qfloor, Qopp. simpl.
  unfold Qle in H. simpl in H.
  rewrite <- (Z.opp_involutive n) at 1.
  rewrite Z.quot_opp_l by discriminate.
  f_equal. apply Z.quot_div_nonneg; [lia | reflexivity].
Qed.

Lemma truncate_monotone (a b : Q) :
  a <= b -> (Py.truncate a <= Py.truncate b)%Z.
Proof.
  intros Hab.
  destruct (Qlt_le_dec a 0) as [Ha | Ha].
  - rewrite (truncate_ceiling a) by now apply Qlt_le_weak.
    destruct (Qlt_le_dec 0 b) as [Hb | Hb].
    + rewrite (truncate_floor b) by now apply Qlt_le_weak.
      apply Z.le_trans with 0%Z.
      * change 0%Z with (Qceiling 0).
        apply Qceiling_resp_le. now apply Qlt_le_weak.
      * change 0%Z with (Qfloor 0).
        apply Qfloor_resp_le. now apply Qlt_le_weak.
    + rewrite (truncate_ceiling b) by assumption.
      now apply Qceiling_resp_le.
  - rewrite (truncate_floor a) by assumption.
    rewrite (truncate_floor b) by (eapply Qle_trans; eassumption).
    now apply Qfloor_resp_le.
Qed.

(** [int] moves a number by less than one, toward zero. *)
Lemma truncate_within_one (q : Q) :
  inject_Z (Py.truncate q) - 1 < q < inject_Z (Py.truncate q) + 1.
Proof.
  destruct (Qlt_le_dec q 0) as [Hq | Hq].
  - rewrite (truncate_ceiling q) by now apply Qlt_le_weak.
    pose proof (Qle_ceiling q) as H1. pose proof (Qceiling_lt q) as H2.
    unfold Z.sub in H2. rewrite inject_Z_plus, inject_Z_opp in H2.
    split.
    + exact H2.
    + eapply Qle_lt_trans; [exact H1 |].
      rewrite <- (Qplus_0_r (inject_Z (Qceiling q))) at 1.
      apply Qplus_lt_r. reflexivity.
  - rewrite (truncate_floor q) by assumption.
    pose proof (Qfloor_le q) as H1. pose proof (Qlt_floor q) as H2.
    rewrite inject_Z_plus in H2.
    split.
    + eapply Qlt_le_trans; [| exact H1].
      rewrite <- (Qplus_0_r (inject_Z (Qfloor q))) at 2.
      apply Qplus_lt_r. reflexivity.
    + exact H2.
Qed.


(** *** The default selection *)




Lemma default_filter_spec (df : list Booking)
  (sel : Selection) :
  default_selection df = Some sel ->
  adr_bounds df = Some (adr_range sel)
  /\ filtered_rows sel df = filter (in_range (adr_range sel)) df.
Proof.
  intros Hsel.
  destruct (default_options_spec df sel Hsel)
    as ((_ & Hh) & (_ & Hy) & (_ & Hm) & (_ & Hc)).
  split.
  - unfold default_selection in Hsel.
    destruct (adr_bounds df) as [bounds |]; [| discriminate].
    destruct (fst bounds <? snd bounds)%Z; [| discriminate].
    injection Hsel as <-. reflexivity.
  - rewrite filtered_rows_filter. apply filter_ext_in.
    intros r Hr. unfold retainedb, in_range.
    rewrite (proj2 (existsb_In_string _ _))
      by (apply Hh; unfold col; now apply in_map).
    rewrite (proj2 (existsb_In_Z _ _))
      by (apply Hy; unfold col; now apply in_map).
    rewrite (proj2 (existsb_In_string _ _))
      by (apply Hm; unfold col; now apply in_map).
    rewrite (proj2 (existsb_In_string _ _))
      by (apply Hc; unfold col; now apply in_map).
    reflexivity.
Qed.

(** X3. With every widget left at its default, the four multiselects reject
    nothing: the filtered table is the source table cut to the integer
    adr range of the slider. *)
Theorem default_selection_filters_by_range (df : list Booking)
  (sel : Selection) :
  default_selection df = Some sel ->
  adr_bounds df = Some (adr_range sel)
  /\ filtered_rows sel df = filter (in_range (adr_range sel)) df.
Proof. exact (default_filter_spec df sel). Qed.

Lemma default_selection_filters_by_range_witness :
  default_selection Sample.fractional = Some Sample.full_range
  /\ filtered_rows Sample.full_range Sample.fractional
     = filter (in_range (100, 200)%Z) Sample.fractional.
Proof.
  split; [reflexivity |].
  exact (proj2 (default_selection_filters_by_range
                  Sample.fractional Sample.full_range eq_refl)).
Defined.

(** X4. The slider bounds are ordered, and every adr of the table lies less
    than one below the lower bound at least and less than one above the
    upper bound at most. *)
Theorem slider_bounds_ordered (df : list Booking) (lo hi : Z) :
  adr_bounds df = Some (lo, hi) ->
  (lo <= hi)%Z
  /\ forall r, In r df -> inject_Z lo - 1 < adr r < inject_Z hi + 1.
Proof.
  intros Hb. unfold adr_bounds in Hb.
  destruct (Pandas.min (col adr df)) as [mn |] eqn:Hmin; [| discriminate].
  destruct (Pandas.max (col adr df)) as [mx |] eqn:Hmax; [| discriminate].
  simpl in Hb. injection Hb as <- <-.
  apply min_spec in Hmin. apply max_spec in Hmax.
  destruct Hmin as [Hmn1 Hmn2], Hmax as [Hmx1 Hmx2].
  split.
  - apply truncate_monotone. now apply Hmx2.
  - intros r Hr.
    assert (Hin : In (adr r) (col adr df)) by (unfold col; now apply in_map).
    split.
    + eapply Qlt_le_trans;
        [exact (proj1 (truncate_within_one mn)) | now apply Hmn2].
    + eapply Qle_lt_trans;
        [now apply Hmx2 | exact (proj2 (truncate_within_one mx))].
Qed.

Lemma slider_bounds_ordered_witness :
  adr_bounds Cases.negative_rate = Some (-6, 120)%Z
  /\ (-6 <= 120)%Z.
Proof.
  split; [reflexivity |].
  exact (proj1 (slider_bounds_ordered Cases.negative_rate _ _ eq_refl)).
Defined.



(** X6. The lower end of the slider. When the least adr is not negative, no
    row is below the lower bound; a row below it (the least adr being
    negative and not whole, [int] having raised it toward zero) is not in
    the filtered table. *)
Theorem slider_lower_bound (df : list Booking) (lo hi : Z) (mn : Q) :
  adr_bounds df = Some (lo, hi) ->
  Pandas.min (col adr df) = Pandas.Fin mn ->
  (0 <= mn -> forall r, In r df -> inject_Z lo <= adr r)
  /\ (forall sel r,
         adr_range sel = (lo, hi) -> adr r < inject_Z lo ->
         ~ In r (filtered_rows sel df)).
Proof.
  intros Hb Hmin. split.
  - intros Hpos r Hr.
    unfold adr_bounds in Hb. rewrite Hmin in Hb. simpl in Hb.
    destruct (Py.int (Pandas.max (col adr df))); [| discriminate].
    injection Hb as <- _.
    rewrite truncate_floor by assumption.
    eapply Qle_trans; [apply Qfloor_le |].
    apply (proj2 (min_spec _ _ Hmin)). unfold col. now apply in_map.
  - intros sel r Hrange Hlt Hin.
    apply filtered_rows_bound in Hin. rewrite Hrange in Hin. simpl in Hin.
    destruct Hin as [Hlo _]. now apply Qlt_not_le in Hlt.
Qed.

Lemma slider_lower_bound_witness :
  adr_bounds Cases.negative_rate = Some (-6, 120)%Z
  /\ Pandas.min (col adr Cases.negative_rate) = Pandas.Fin (- (638 # 100))
  /\ option_map adr_range (default_selection Cases.negative_rate)
     = Some (-6, 120)%Z
  /\ (forall sel,
         adr_range sel = (-6, 120)%Z ->
         ~ In (Sample.booking "City Hotel" 2021 "January" (- (638 # 100)))
              (filtered_rows sel Cases.negative_rate)).
Proof.
  split; [reflexivity |]. split; [reflexivity |]. split; [reflexivity |].
  intros sel Hsel.
  apply (proj2 (slider_lower_bound Cases.negative_rate (-6) 120
                  (- (638 # 100)) eq_refl eq_refl) sel _ Hsel).
  reflexivity.
Defined.

(** *** Filtering twice *)

Lemma filter_filter_implied {A : Type} (f g : A -> bool) (l : list A) :
  (forall x, f x = true -> g x = true) ->
  filter f (filter g l) = filter f l.
Proof.
  intros H. induction l as [| x l IH]; simpl; [reflexivity |].
  destruct (g x) eqn:Eg; simpl.
  - now rewrite IH.
  - destruct (f x) eqn:Ef; [| exact IH].
    apply H in Ef. congruence.
Qed.

Lemma narrower_retained (sel sel' : Selection) (r : Booking) :
  narrower sel sel' -> retainedb sel r = true -> retainedb sel' r = true.
Proof.
  intros (Hh & Hy & Hm & Hc & Hlo & Hhi).
  rewrite !retainedb_spec.
  intros (H1 & H2 & H3 & H4 & H5 & H6).
  repeat split; auto.
  - eapply Qle_trans; [| exact H5]. now rewrite <- Zle_Qle.
  - eapply Qle_trans; [exact H6 |]. now rewrite <- Zle_Qle.
Qed.

(** X7. Filtering a filtered table again with the same selection changes
    nothing. *)
Theorem filter_idempotent (sel : Selection) (df : list Booking) :
  filtered_rows sel (filtered_rows sel df) = filtered_rows sel df.
Proof.
  rewrite !filtered_rows_filter. now apply filter_filter_implied.
Qed.

(** X8. Narrowing a selection: filtering the table kept by a wider selection
    gives the table the narrower selection keeps from the source, and
    that table is, in order, part of the wider one. *)
Theorem narrower_selection (sel sel' : Selection) (df : list Booking) :
  narrower sel sel' ->
  filtered_rows sel (filtered_rows sel' df) = filtered_rows sel df
  /\ subseq (filtered_rows sel df) (filtered_rows sel' df).
Proof.
  intros Hn.
  assert (H : filtered_rows sel (filtered_rows sel' df)
              = filtered_rows sel df).
  { rewrite !filtered_rows_filter. apply filter_filter_implied.
    intros r. now apply narrower_retained. }
  split; [exact H |].
  rewrite <- H. rewrite (filtered_rows_filter sel). apply subseq_filter.
Qed.

Lemma narrower_selection_witness :
  narrower Cases.city_only Sample.everything
  /\ filtered_rows Cases.city_only
       (filtered_rows Sample.everything Sample.jan_apr)
     = filtered_rows Cases.city_only Sample.jan_apr.
Proof.
  assert (Hn : narrower Cases.city_only Sample.everything).
  { unfold narrower, incl. simpl.
    repeat split; try (intros a Ha; tauto); discriminate. }
  split; [exact Hn |].
  exact (proj1 (narrower_selection Cases.city_only Sample.everything
                  Sample.jan_apr Hn)).
Defined.

(** *** Averages *)

Lemma sum_cons (x : Q) (s : Pandas.Series Q) :
  Pandas.sum (x :: s) == x + Pandas.sum s.
Proof.
  unfold Pandas.sum. simpl. rewrite fold_left_Qplus_shift. ring.
Qed.

Lemma count_succ (n : nat) :
  inject_Z (Z.of_nat (S n)) == inject_Z (Z.of_nat n) + 1.
Proof. rewrite Nat2Z.inj_succ. unfold Z.succ. now rewrite inject_Z_plus. Qed.

Lemma count_nonneg (n : nat) : 0 <= inject_Z (Z.of_nat n).
Proof. change 0 with (inject_Z 0). rewrite <- Zle_Qle. lia. Qed.

Lemma sum_between (lo hi : Q) (s : Pandas.Series Q) :
  (forall y, In y s -> lo <= y <= hi) ->
  inject_Z (Z.of_nat (List.length s)) * lo <= Pandas.sum s
  /\ Pandas.sum s <= inject_Z (Z.of_nat (List.length s)) * hi.
Proof.
  induction s as [| x s IH]; intros H.
  - change (0 * lo <= 0 /\ 0 <= 0 * hi). split; lra.
  - destruct IH as [IH1 IH2]; [intros y Hy; apply H; now right |].
    destruct (H x (or_introl eq_refl)) as [Hx1 Hx2].
    change (List.length (x :: s)) with (S (List.length s)).
    rewrite count_succ, sum_cons.
    set (n := inject_Z (Z.of_nat (List.length s))) in *.
    split; nra.
Qed.

(** The mean of a Series with at least one value lies between any two
    bounds of its values. *)
Lemma mean_between (lo hi : Q) (s : Pandas.Series Q) :
  s <> [] -> (forall y, In y s -> lo <= y <= hi) ->
  exists q, Pandas.mean s = Pandas.Fin q /\ lo <= q <= hi.
Proof.
  intros Hne H. destruct (sum_between lo hi s H) as [H1 H2].
  destruct s as [| x s]; [contradiction |].
  eexists. split; [reflexivity |].
  assert (Hpos : 0 < inject_Z (Z.of_nat (List.length (x :: s)))).
  { change 0 with (inject_Z 0). rewrite <- Zlt_Qlt. simpl. lia. }
  split.
  - apply Qle_shift_div_l; [exact Hpos |]. lra.
  - apply Qle_shift_div_r; [exact Hpos |]. lra.
Qed.


(** X10. When every booking carries the flag 0 or 1 in [is_canceled], the
    cancellation rate of a table with at least one row is a number from
    0 to 100. *)
Theorem cancellation_rate_percentage (t : list Booking) :
  t <> [] ->
  (forall r, In r t -> is_canceled r = 0%Z \/ is_canceled r = 1%Z) ->
  exists q, cancellation_rate t = Pandas.Fin q /\ 0 <= q <= 100.
Proof.
  intros Hne Hflag.
  destruct (mean_between 0 1 (Pandas.of_ints (col is_canceled t)))
    as [m [Hm [Hm0 Hm1]]].
  - destruct t; [contradiction | discriminate].
  - intros y Hy. unfold Pandas.of_ints, col in Hy.
    rewrite map_map in Hy. apply in_map_iff in Hy.
    destruct Hy as [r [<- Hr]].
    destruct (Hflag r Hr) as [-> | ->]; split; discriminate.
  - unfold cancellation_rate. rewrite Hm. simpl.
    eexists. split; [reflexivity |]. split; lra.
Qed.

Lemma cancellation_rate_percentage_witness :
  Sample.jan_apr <> []
  /\ exists q,
       cancellation_rate Sample.jan_apr = Pandas.Fin q /\ 0 <= q <= 100.
Proof.
  assert (H : Sample.jan_apr <> []) by discriminate.
  split; [exact H |].
  apply (cancellation_rate_percentage Sample.jan_apr H).
  intros r [<- | [<- | []]]; left; reflexivity.
Defined.

(** X11. The upgrade rate of a table with at least one row is a number
    from 0 to 100, and it is 0 exactly when no booking of the table has
    an assigned room type that differs from the reserved one. *)
Theorem upgrade_rate_percentage (t : list Booking) :
  t <> [] ->
  exists q,
    upgrade_rate t = Pandas.Fin q
    /\ 0 <= q <= 100
    /\ (q == 0 <-> filter room_changed t = []).
Proof.
  intros Hne.
  assert (Hser : Pandas.of_bools
                   (Pandas.ne String.eqb
                      (col assigned_room_type t) (col reserved_room_type t))
                 = map (fun r => if room_changed r then 1 else 0) t).
  { unfold Pandas.of_bools, Pandas.ne, col, room_changed.
    clear Hne. induction t as [| r t IH]; [reflexivity |].
    simpl. now rewrite IH. }
  assert (Hsum : Pandas.sum (map (fun r => if room_changed r then 1 else 0) t)
                 == inject_Z (Z.of_nat (List.length (filter room_changed t)))).
  { clear Hne Hser. induction t as [| r t IH]; [reflexivity |].
    cbn [map filter]. rewrite sum_cons, IH.
    destruct (room_changed r).
    - change (List.length (r :: filter room_changed t))
        with (S (List.length (filter room_changed t))).
      rewrite count_succ. ring.
    - ring. }
  assert (Hlen : (List.length (filter room_changed t) <= List.length t)%nat)
    by apply filter_length_le.
  assert (Hpos : 0 < inject_Z (Z.of_nat (List.length t))).
  { change 0 with (inject_Z 0). rewrite <- Zlt_Qlt.
    destruct t; [contradiction | simpl; lia]. }
  assert (Hle : inject_Z (Z.of_nat (List.length (filter room_changed t)))
                <= inject_Z (Z.of_nat (List.length t)))
    by (rewrite <- Zle_Qle; lia).
  pose proof (count_nonneg (List.length (filter room_changed t))) as Hc.
  assert (Hzero : inject_Z (Z.of_nat (List.length (filter room_changed t)))
                  == 0 <-> filter room_changed t = []).
  { rewrite <- length_zero_iff_nil. change 0 with (inject_Z 0).
    rewrite inject_Z_injective. lia. }
  unfold upgrade_rate. rewrite Hser.
  destruct t as [| r t]; [contradiction |].
  eexists. split; [reflexivity |].
  cbn [Pandas.fmul Pandas.mean].
  rewrite length_map, Hsum.
  set (n := inject_Z (Z.of_nat (List.length (r :: t)))) in *.
  set (c := inject_Z (Z.of_nat (List.length (filter room_changed (r :: t)))))
    in *.
  assert (Hn : ~ n == 0) by lra.
  assert (Hfrac : 0 <= c / n <= 1).
  { split.
    - apply Qle_shift_div_l; [exact Hpos | lra].
    - apply Qle_shift_div_r; [exact Hpos | lra]. }
  split; [split; lra |].
  rewrite <- Hzero. split.
  - intros Hq.
    assert (Hc0 : c == c / n * 100 * (n / 100)) by (field; exact Hn).
    rewrite Hc0, Hq. ring.
  - intros Hc0. rewrite Hc0. field. exact Hn.
Qed.

Lemma upgrade_rate_percentage_witness :
  Sample.jan_apr <> []
  /\ exists q,
       upgrade_rate Sample.jan_apr = Pandas.Fin q /\ 0 <= q <= 100.
Proof.
  assert (H : Sample.jan_apr <> []) by discriminate.
  split; [exact H |].
  destruct (upgrade_rate_percentage Sample.jan_apr H) as [q [Hq [Hb _]]].
  exists q. split; assumption.
Defined.

(** *** What the groups hold *)

Section GroupSpec.
Context {K V : Type}.
Variable cmp : K -> K -> comparison.
Hypothesis cmp_eq : forall a b, cmp a b = Eq <-> a = b.
Hypothesis cmp_antisym : forall a b, cmp a b = CompOpp (cmp b a).
Hypothesis cmp_trans :
  forall a b c, cmp a b = Lt -> cmp b c = Lt -> cmp a c = Lt.

Lemma same_key_true (a b : K) : same_key cmp a b = true <-> a = b.
Proof.
  unfold same_key. rewrite <- cmp_eq.
  destruct (cmp a b); split; congruence.
Qed.

Lemma cmp_refl (a : K) : cmp a a = Eq.
Proof. now apply cmp_eq. Qed.

Lemma cmp_gt_lt (a b : K) : cmp a b = Gt -> cmp b a = Lt.
Proof. intros H. rewrite cmp_antisym, H. reflexivity. Qed.

Lemma add_row_keys (k : K) (v : V) (groups : list (K * list V))
  (g : K * list V) :
  In g (GroupBy.add_row cmp k v groups) ->
  fst g = k \/ exists g', In g' groups /\ fst g' = fst g.
Proof.
  induction groups as [| [k' vs] rest IH]; simpl.
  - intros [<- | []]. now left.
  - destruct (cmp k k') eqn:E; simpl.
    + intros [<- | H].
      * right. exists (k', vs). simpl. auto.
      * right. exists g. auto.
    + intros [<- | [<- | H]].
      * now left.
      * right. exists (k', vs). simpl. auto.
      * right. exists g. auto.
    + intros [<- | H].
      * right. exists (k', vs). simpl. auto.
      * destruct (IH H) as [Hk | [g' [Hg' Hf]]]; [now left |].
        right. exists g'. auto.
Qed.

Lemma add_row_ascending (k : K) (v : V) (groups : list (K * list V)) :
  keys_ascending cmp groups ->
  keys_ascending cmp (GroupBy.add_row cmp k v groups).
Proof.
  unfold keys_ascending.
  induction 1 as [| [k' vs] rest Hrest IH Hk']; simpl.
  - repeat constructor.
  - destruct (cmp k k') eqn:E.
    + constructor; assumption.
    + constructor; [now constructor |].
      constructor; [exact E |].
      rewrite Forall_forall in *. intros g Hg. simpl.
      eapply cmp_trans; [exact E | now apply Hk'].
    + constructor; [exact IH |].
      rewrite Forall_forall in *. intros g Hg. simpl.
      destruct (add_row_keys _ _ _ _ Hg) as [-> | [g' [Hg' <-]]].
      * now apply cmp_gt_lt.
      * now apply Hk'.
Qed.

Lemma group_of_above (k : K) (groups : list (K * list V)) :
  Forall (fun g => cmp k (fst g) = Lt) groups ->
  group_of cmp k groups = [].
Proof.
  unfold group_of. induction 1 as [| g rest Hg Hrest IH]; [reflexivity |].
  simpl. unfold same_key at 1.
  rewrite cmp_antisym, Hg. simpl. exact IH.
Qed.

Lemma group_of_cons (x k : K) (vs : list V) (rest : list (K * list V)) :
  group_of cmp x ((k, vs) :: rest)
  = if same_key cmp k x then vs else group_of cmp x rest.
Proof. unfold group_of. simpl. now destruct (same_key cmp k x). Qed.

Lemma add_row_group (k : K) (v : V) (groups : list (K * list V)) (x : K) :
  keys_ascending cmp groups ->
  group_of cmp x (GroupBy.add_row cmp k v groups)
  = group_of cmp x groups ++ (if same_key cmp k x then [v] else []).
Proof.
  unfold keys_ascending.
  induction 1 as [| [k' vs] rest Hrest IH Hk'].
  - simpl. rewrite group_of_cons. now destruct (same_key cmp k x).
  - simpl. destruct (cmp k k') eqn:E.
    + apply cmp_eq in E. subst k'. rewrite !group_of_cons.
      destruct (same_key cmp k x); [reflexivity | now rewrite app_nil_r].
    + rewrite (group_of_cons x k). destruct (same_key cmp k x) eqn:Ex.
      * apply same_key_true in Ex. subst x.
        rewrite group_of_above; [reflexivity |].
        constructor; [exact E |].
        rewrite Forall_forall in *. intros g Hg.
        eapply cmp_trans; [exact E | now apply Hk'].
      * now rewrite app_nil_r.
    + rewrite !group_of_cons. destruct (same_key cmp k' x) eqn:Ex.
      * apply same_key_true in Ex. subst x.
        unfold same_key. rewrite E. now rewrite app_nil_r.
      * exact IH.
Qed.

Lemma add_row_nonempty (k : K) (v : V) (groups : list (K * list V)) :
  Forall (fun g => snd g <> []) groups ->
  Forall (fun g => snd g <> []) (GroupBy.add_row cmp k v groups).
Proof.
  induction 1 as [| [k' vs] rest Hg Hrest IH]; simpl.
  - constructor; [discriminate | constructor].
  - destruct (cmp k k').
    + constructor; [| assumption]. simpl.
      intros H. now apply app_eq_nil in H as [_ H].
    + constructor; [discriminate |]. now constructor.
    + now constructor.
Qed.

Lemma groupby_acc (kvs : list (K * V)) (acc : list (K * list V)) :
  keys_ascending cmp acc ->
  Forall (fun g => snd g <> []) acc ->
  let groups :=
    fold_left (fun gs kv => GroupBy.add_row cmp (fst kv) (snd kv) gs)
      kvs acc in
  keys_ascending cmp groups
  /\ Forall (fun g => snd g <> []) groups
  /\ forall x, group_of cmp x groups
               = group_of cmp x acc ++ rows_with_key cmp x kvs.
Proof.
  revert acc. induction kvs as [| [k v] kvs IH]; intros acc Hasc Hne; simpl.
  - repeat split; try assumption.
    intros x. unfold rows_with_key. simpl. now rewrite app_nil_r.
  - destruct (IH (GroupBy.add_row cmp k v acc)) as (H1 & H2 & H3).
    + now apply add_row_ascending.
    + now apply add_row_nonempty.
    + repeat split; try assumption.
      intros x. rewrite H3, add_row_group by assumption.
      rewrite <- app_assoc. f_equal.
      unfold rows_with_key. simpl.
      now destruct (same_key cmp k x).
Qed.

(** [groupby] lists its keys in strictly ascending order, has no empty
    group, and puts under each key the values of the rows carrying it, in
    row order. *)
Lemma groupby_spec (keys : Pandas.Series K) (vals : Pandas.Series V) :
  keys_ascending cmp (GroupBy.groupby cmp keys vals)
  /\ Forall (fun g => snd g <> []) (GroupBy.groupby cmp keys vals)
  /\ forall x, group_of cmp x (GroupBy.groupby cmp keys vals)
               = rows_with_key cmp x (combine keys vals).
Proof.
  unfold GroupBy.groupby.
  destruct (groupby_acc (combine keys vals) []) as (H1 & H2 & H3).
  - constructor.
  - constructor.
  - repeat split; assumption.
Qed.

Lemma group_of_member (k : K) (vs : list V) (groups : list (K * list V)) :
  keys_ascending cmp groups -> In (k, vs) groups ->
  group_of cmp k groups = vs.
Proof.
  unfold keys_ascending.
  induction 1 as [| [k' vs'] rest Hrest IH Hk']; intros Hin.
  - contradiction.
  - rewrite group_of_cons. destruct Hin as [[= -> ->] | Hin].
    + unfold same_key. now rewrite cmp_refl.
    + rewrite Forall_forall in Hk'. specialize (Hk' _ Hin). simpl in Hk'.
      unfold same_key. rewrite Hk'. now apply IH.
Qed.

Lemma group_of_nonempty_member (k : K) (groups : list (K * list V)) :
  group_of cmp k groups <> [] -> In (k, group_of cmp k groups) groups.
Proof.
  unfold group_of.
  destruct (find (fun g => same_key cmp (fst g) k) groups) as [[k' vs] |]
    eqn:E; [| congruence].
  intros _. apply find_some in E. destruct E as [Hin Hk].
  apply same_key_true in Hk. simpl in Hk. now subst.
Qed.
End GroupSpec.

(** *** The orders of the group keys *)

Lemma string_compare_eq (a b : string) :
  String.compare a b = Eq <-> a = b.
Proof. exact (String_as_OT.cmp_eq a b). Qed.

Lemma string_compare_antisym (a b : string) :
  String.compare a b = CompOpp (String.compare b a).
Proof. exact (String_as_OT.cmp_antisym a b). Qed.

Lemma string_compare_trans (a b c : string) :
  String.compare a b = Lt -> String.compare b c = Lt ->
  String.compare a c = Lt.
Proof.
  intros H1 H2. apply String_as_OT.cmp_lt.
  eapply String_as_OT.lt_trans; apply String_as_OT.cmp_lt; eassumption.
Qed.

Lemma compare_year_month_eq (a b : Z * string) :
  compare_year_month a b = Eq <-> a = b.
Proof.
  destruct a as [y1 m1], b as [y2 m2]. unfold compare_year_month. simpl.
  destruct (Z.compare_spec y1 y2) as [-> | H | H].
  - rewrite string_compare_eq. split; congruence.
  - split; [discriminate | intros [= -> _]; lia].
  - split; [discriminate | intros [= -> _]; lia].
Qed.

Lemma compare_year_month_antisym (a b : Z * string) :
  compare_year_month a b = CompOpp (compare_year_month b a).
Proof.
  destruct a as [y1 m1], b as [y2 m2]. unfold compare_year_month. simpl.
  rewrite (Z.compare_antisym y1 y2).
  destruct (y1 ?= y2)%Z; simpl; try reflexivity.
  apply string_compare_antisym.
Qed.

Lemma compare_year_month_trans (a b c : Z * string) :
  compare_year_month a b = Lt -> compare_year_month b c = Lt ->
  compare_year_month a c = Lt.
Proof.
  destruct a as [y1 m1], b as [y2 m2], c as [y3 m3].
  unfold compare_year_month. simpl.
  destruct (Z.compare_spec y1 y2) as [-> | H12 | H12]; try discriminate;
    destruct (Z.compare_spec y2 y3) as [-> | H23 | H23]; try discriminate;
    intros H1 H2;
    try reflexivity;
    try (eapply string_compare_trans; eassumption);
    assert (H13 : (y1 < y3)%Z) by lia;
    apply Z.compare_lt_iff in H13; now rewrite H13.
Qed.

Lemma same_key_string (a b : string) :
  same_key String.compare a b = String.eqb a b.
Proof.
  destruct (String.eqb a b) eqn:E.
  - apply String.eqb_eq in E. subst.
    unfold same_key. now rewrite (proj2 (string_compare_eq b b) eq_refl).
  - apply String.eqb_neq in E. unfold same_key.
    destruct (String.compare a b) eqn:C; try reflexivity.
    apply string_compare_eq in C. contradiction.
Qed.

Lemma same_key_year_month (r : Booking) (y : Z) (m : string) :
  same_key compare_year_month
    (arrival_date_year r, arrival_date_month r) (y, m)
  = in_year_month y m r.
Proof.
  unfold in_year_month.
  destruct (Z.eqb (arrival_date_year r) y
            && String.eqb (arrival_date_month r) m) eqn:E.
  - apply andb_true_iff in E as [E1 E2].
    apply Z.eqb_eq in E1. apply String.eqb_eq in E2. subst.
    unfold same_key.
    now rewrite (proj2 (compare_year_month_eq _ _) eq_refl).
  - unfold same_key.
    destruct (compare_year_month _ _) eqn:C; try reflexivity.
    apply compare_year_month_eq in C. injection C as C1 C2.
    rewrite C1, C2, Z.eqb_refl, String.eqb_refl in E. discriminate.
Qed.

Lemma rows_with_key_map {K V : Type} (cmp : K -> K -> comparison) (x : K)
  (f : Booking -> K) (g : Booking -> V) (t : list Booking) :
  rows_with_key cmp x (combine (map f t) (map g t))
  = map g (filter (fun r => same_key cmp (f r) x) t).
Proof.
  unfold rows_with_key.
  induction t as [| r t IH]; [reflexivity |].
  simpl. destruct (same_key cmp (f r) x); simpl; now rewrite IH.
Qed.

Lemma lookup_mean (m : string) (groups : list (string * list Q)) :
  GroupBy.lookup m (GroupBy.mean groups)
  = Pandas.mean (group_of String.compare m groups).
Proof.
  induction groups as [| [k vs] rest IH]; [reflexivity |].
  rewrite group_of_cons. simpl.
  rewrite same_key_string, (String.eqb_sym k m).
  now destruct (String.eqb m k).
Qed.

Lemma lookup_sum (m : string) (groups : list (string * list Q)) :
  Forall (fun g => snd g <> []) groups ->
  GroupBy.lookup m (GroupBy.sum groups)
  = match group_of String.compare m groups with
    | [] => Pandas.NaN
    | vs => Pandas.Fin (Pandas.sum vs)
    end.
Proof.
  induction 1 as [| [k vs] rest Hne Hrest IH]; [reflexivity |].
  rewrite group_of_cons. simpl.
  rewrite same_key_string, (String.eqb_sym k m).
  destruct (String.eqb m k); [| exact IH].
  simpl in Hne. now destruct vs.
Qed.

(** *** The series by month *)

(** X12. Cancellation by month: the twelve months in calendar order, each
    with the mean of [is_canceled] over the bookings of the table that
    arrive in it, which is NaN for a month without bookings. *)
Theorem month_cancel_by_month (t : list Booking) :
  month_cancel t
  = map (fun m =>
           (m, Pandas.mean
                 (Pandas.of_ints (col is_canceled (filter (in_month m) t)))))
      order.
Proof.
  unfold month_cancel, GroupBy.reindex. apply map_ext. intros m.
  f_equal. rewrite lookup_mean.
  destruct (groupby_spec String.compare string_compare_eq
              string_compare_antisym string_compare_trans
              (col arrival_date_month t)
              (Pandas.of_ints (col is_canceled t))) as (_ & _ & Hg).
  rewrite Hg. unfold Pandas.of_ints, col. rewrite map_map.
  rewrite rows_with_key_map. rewrite map_map. f_equal. f_equal.
  apply filter_ext. intros r. apply same_key_string.
Qed.

Lemma month_groups (t : list Booking) (vals : Booking -> Q) (m : string) :
  group_of String.compare m
    (GroupBy.groupby String.compare (col arrival_date_month t) (map vals t))
  = map vals (filter (in_month m) t).
Proof.
  destruct (groupby_spec String.compare string_compare_eq
              string_compare_antisym string_compare_trans
              (col arrival_date_month t) (map vals t)) as (_ & _ & Hg).
  rewrite Hg. unfold col. rewrite rows_with_key_map. f_equal.
  apply filter_ext. intros r. apply same_key_string.
Qed.

Lemma revenue_month_of_spec (t : list Booking) :
  revenue_month_of (col arrival_date_month t) (revenue_series t)
  = map (fun m => (m, month_revenue t m)) order.
Proof.
  unfold revenue_month_of, GroupBy.reindex. apply map_ext. intros m.
  f_equal. rewrite revenue_series_map.
  rewrite lookup_sum.
  - rewrite month_groups. unfold month_revenue, total_revenue.
    destruct (filter (in_month m) t) as [| r rs]; [reflexivity |].
    now rewrite revenue_series_map.
  - apply (groupby_spec String.compare string_compare_eq
             string_compare_antisym string_compare_trans).
Qed.

(** X13. Revenue by month: the twelve months in calendar order, each with the
    summed revenue of the bookings that arrive in it; a month without
    bookings gets NaN, not 0. *)
Theorem revenue_by_month (t : list Booking) :
  revenue_month_of (col arrival_date_month t) (revenue_series t)
  = map (fun m => (m, month_revenue t m)) order.
Proof. exact (revenue_month_of_spec t). Qed.


(** *** The average adr by year and month *)

Lemma keys_ascending_mean {K : Type} (cmp : K -> K -> comparison)
  (groups : list (K * list Q)) :
  keys_ascending cmp groups -> keys_ascending cmp (GroupBy.mean groups).
Proof.
  unfold keys_ascending, GroupBy.mean.
  induction 1 as [| g rest Hrest IH Hg]; simpl; constructor.
  - exact IH.
  - rewrite Forall_forall in *. intros g' Hg'.
    apply in_map_iff in Hg' as [g0 [<- Hg0]]. simpl. now apply Hg.
Qed.

Lemma year_month_groups (t : list Booking) (y : Z) (m : string) :
  group_of compare_year_month (y, m)
    (GroupBy.groupby compare_year_month
       (map (fun r => (arrival_date_year r, arrival_date_month r)) t)
       (col adr t))
  = col adr (filter (in_year_month y m) t).
Proof.
  destruct (groupby_spec compare_year_month compare_year_month_eq
              compare_year_month_antisym compare_year_month_trans
              (map (fun r => (arrival_date_year r, arrival_date_month r)) t)
              (col adr t)) as (_ & _ & Hg).
  rewrite Hg. unfold col. rewrite rows_with_key_map. f_equal.
  apply filter_ext. intros r. apply same_key_year_month.
Qed.

(** X15. The average adr by year and month has one entry for each year and
    month in which a booking of the table arrives, and no other; the
    entries are ordered by year and then by month name as a string, and
    each holds the mean adr of its bookings. *)
Theorem monthly_adr_by_year_month (t : list Booking) :
  keys_ascending compare_year_month (monthly_adr t)
  /\ forall y m x,
       In ((y, m), x) (monthly_adr t)
       <-> filter (in_year_month y m) t <> []
           /\ x = Pandas.mean (col adr (filter (in_year_month y m) t)).
Proof.
  unfold monthly_adr.
  destruct (groupby_spec compare_year_month compare_year_month_eq
              compare_year_month_antisym compare_year_month_trans
              (map (fun r => (arrival_date_year r, arrival_date_month r)) t)
              (col adr t)) as (Hasc & Hne & _).
  split; [now apply keys_ascending_mean |].
  intros y m x. unfold GroupBy.mean. rewrite in_map_iff. split.
  - intros [[k vs] [Heq Hin]]. simpl in Heq. injection Heq as -> <-.
    pose proof (group_of_member compare_year_month compare_year_month_eq
                  _ _ _ Hasc Hin) as Hgrp.
    rewrite year_month_groups in Hgrp.
    rewrite Forall_forall in Hne. specialize (Hne _ Hin). simpl in Hne.
    split; [| now rewrite Hgrp].
    intros Hnil. rewrite Hnil in Hgrp. simpl in Hgrp. congruence.
  - intros [Hrows ->].
    exists ((y, m), col adr (filter (in_year_month y m) t)).
    split; [reflexivity |].
    rewrite <- year_month_groups.
    apply (group_of_nonempty_member compare_year_month
             compare_year_month_eq).
    rewrite year_month_groups.
    destruct (filter (in_year_month y m) t); [congruence | discriminate].
Qed.

(** *** Revenue by market segment *)

Lemma segment_groups (t : list Booking) (vals : Booking -> Q)
  (seg : string) :
  group_of String.compare seg
    (GroupBy.groupby String.compare (col market_segment t) (map vals t))
  = map vals (filter (in_segment seg) t).
Proof.
  destruct (groupby_spec String.compare string_compare_eq
              string_compare_antisym string_compare_trans
              (col market_segment t) (map vals t)) as (_ & _ & Hg).
  rewrite Hg. unfold col. rewrite rows_with_key_map. f_equal.
  apply filter_ext. intros r. apply same_key_string.
Qed.

Lemma string_keys_nodup {V : Type} (groups : list (string * V)) :
  keys_ascending String.compare groups -> NoDup (map fst groups).
Proof.
  unfold keys_ascending.
  induction 1 as [| g rest Hrest IH Hg]; simpl; constructor.
  - intros Hin. apply in_map_iff in Hin as [g' [Heq Hg']].
    rewrite Forall_forall in Hg. specialize (Hg _ Hg').
    rewrite Heq in Hg.
    rewrite (proj2 (string_compare_eq (fst g) (fst g)) eq_refl) in Hg.
    discriminate.
  - exact IH.
Qed.

Lemma sort_by_sum_perm (l : list (string * Pandas.float64)) :
  Permutation (sort_by_sum l) l.
Proof.
  assert (Hins : forall p l0, Permutation (insert_by_sum p l0) (p :: l0)).
  { intros p l0. induction l0 as [| q l0 IH]; simpl; [reflexivity |].
    destruct (float_leb (snd q) (snd p)); [reflexivity |].
    rewrite IH. apply perm_swap. }
  induction l as [| p l IH]; simpl; [reflexivity |].
  rewrite Hins. now constructor.
Qed.

(** X16. Revenue by market segment, whatever order the sorting routine
    gives the bars: there is one bar for each market segment that a
    booking of the table has and no other bar, and the bar of a segment
    holds the sum of the revenue Series over the bookings of that
    segment; no bar is NaN. *)
Theorem revenue_segment_bars
  (sort_values : list (string * Pandas.float64)
                 -> list (string * Pandas.float64))
  (t : list Booking) :
  (forall l, Permutation (sort_values l) l) ->
  NoDup
    (map fst
       (revenue_segment sort_values (col market_segment t)
          (revenue_series t)))
  /\ forall seg x,
       In (seg, x)
         (revenue_segment sort_values (col market_segment t)
            (revenue_series t))
       <-> filter (in_segment seg) t <> []
           /\ x = Pandas.Fin (total_revenue (filter (in_segment seg) t)).
Proof.
  intros Hperm. unfold revenue_segment.
  rewrite revenue_series_map.
  destruct (groupby_spec String.compare string_compare_eq
              string_compare_antisym string_compare_trans
              (col market_segment t) (map booking_revenue t))
    as (Hasc & Hne & _).
  assert (Hbar : forall seg,
             Pandas.sum (map booking_revenue (filter (in_segment seg) t))
             = total_revenue (filter (in_segment seg) t)).
  { intros seg. unfold total_revenue. now rewrite revenue_series_map. }
  split.
  - eapply Permutation_NoDup.
    + apply Permutation_map. symmetry. apply Hperm.
    + unfold GroupBy.sum. rewrite map_map. simpl.
      now apply string_keys_nodup.
  - intros seg x. split.
    + intros Hin. apply (Permutation_in _ (Hperm _)) in Hin.
      unfold GroupBy.sum in Hin.
      apply in_map_iff in Hin as [[k vs] [Heq Hin]].
      simpl in Heq. injection Heq as -> <-.
      pose proof (group_of_member String.compare string_compare_eq
                    _ _ _ Hasc Hin) as Hgrp.
      rewrite segment_groups in Hgrp.
      rewrite Forall_forall in Hne. specialize (Hne _ Hin). simpl in Hne.
      split.
      * intros Hnil. rewrite Hnil in Hgrp. simpl in Hgrp. congruence.
      * now rewrite <- Hgrp, Hbar.
    + intros [Hrows ->].
      apply (Permutation_in _ (Permutation_sym (Hperm _))).
      unfold GroupBy.sum. apply in_map_iff.
      exists (seg, map booking_revenue (filter (in_segment seg) t)).
      split; [simpl; now rewrite Hbar |].
      rewrite <- (segment_groups t booking_revenue seg).
      apply (group_of_nonempty_member String.compare string_compare_eq).
      rewrite segment_groups.
      destruct (filter (in_segment seg) t); [congruence | discriminate].
Qed.

Lemma revenue_segment_bars_witness :
  revenue_segment sort_by_sum (col market_segment Cases.guests)
    (revenue_series Cases.guests)
  = [("Online TA"%string, Pandas.Fin (total_revenue
                                        (filter (in_segment "Online TA")
                                           Cases.guests)));
     ("Direct"%string, Pandas.Fin (total_revenue
                                     (filter (in_segment "Direct")
                                        Cases.guests)))]
  /\ NoDup
       (map fst
          (revenue_segment sort_by_sum (col market_segment Cases.guests)
             (revenue_series Cases.guests))).
Proof.
  split; [reflexivity |].
  exact (proj1 (revenue_segment_bars sort_by_sum Cases.guests
                  sort_by_sum_perm)).
Defined.

(** *** What the tally of [value_counts] holds *)

Section TallySpec.
Context {A : Type}.
Variable eqb : A -> A -> bool.
Hypothesis eqb_spec : forall x y, eqb x y = true <-> x = y.

Lemma eqb_refl_true (x : A) : eqb x x = true.
Proof. now apply eqb_spec. Qed.

Lemma eqb_swap (x y : A) : eqb x y = eqb y x.
Proof.
  destruct (eqb x y) eqn:E1, (eqb y x) eqn:E2; try reflexivity.
  - apply eqb_spec in E1. subst. rewrite eqb_refl_true in E2. discriminate.
  - apply eqb_spec in E2. subst. rewrite eqb_refl_true in E1. discriminate.
Qed.

Lemma bump_count (x y : A) (tally : list (A * nat)) :
  count_in eqb y (ValueCounts.bump eqb x tally)
  = (count_in eqb y tally + if eqb y x then 1 else 0)%nat.
Proof.
  induction tally as [| [z n] tally IH]; simpl.
  - destruct (eqb y x); reflexivity.
  - destruct (eqb x z) eqn:Exz; simpl.
    + apply eqb_spec in Exz. subst z.
      destruct (eqb y x); lia.
    + destruct (eqb y z) eqn:Eyz; [| exact IH].
      apply eqb_spec in Eyz. subst z.
      rewrite (eqb_swap y x), Exz. lia.
Qed.

Lemma bump_keys (x : A) (tally : list (A * nat)) :
  map fst (ValueCounts.bump eqb x tally)
  = if existsb (eqb x) (map fst tally) then map fst tally
    else map fst tally ++ [x].
Proof.
  induction tally as [| [z n] tally IH]; simpl; [reflexivity |].
  destruct (eqb x z); simpl; [reflexivity |].
  rewrite IH. now destruct (existsb (eqb x) (map fst tally)).
Qed.

Lemma existsb_rev (x : A) (l : list A) :
  existsb (eqb x) (rev l) = existsb (eqb x) l.
Proof.
  destruct (existsb (eqb x) l) eqn:E.
  - apply existsb_exists. apply existsb_exists in E as [y [Hy Hxy]].
    exists y. split; [now apply in_rev in Hy | assumption].
  - apply not_true_is_false. intros H.
    apply existsb_exists in H as [y [Hy Hxy]].
    apply in_rev in Hy.
    assert (existsb (eqb x) l = true)
      by (apply existsb_exists; exists y; auto).
    congruence.
Qed.

Lemma tally_acc (s : Pandas.Series A) (acc : list (A * nat)) :
  let res := fold_left (fun t x => ValueCounts.bump eqb x t) s acc in
  map fst res = Pandas.unique_acc eqb (rev (map fst acc)) s
  /\ forall y, count_in eqb y res
               = (count_in eqb y acc + occurrences eqb y s)%nat.
Proof.
  revert acc. induction s as [| x s IH]; intros acc; simpl.
  - split; [now rewrite rev_involutive |].
    intros y. unfold occurrences. simpl. lia.
  - destruct (IH (ValueCounts.bump eqb x acc)) as [Hk Hc]. split.
    + rewrite Hk, bump_keys, existsb_rev.
      destruct (existsb (eqb x) (map fst acc)); [reflexivity |].
      now rewrite rev_app_distr.
    + intros y. rewrite Hc, bump_count. unfold occurrences. simpl.
      destruct (eqb y x); simpl; lia.
Qed.

Lemma count_in_member (x : A) (c : nat) (tally : list (A * nat)) :
  NoDup (map fst tally) -> In (x, c) tally -> count_in eqb x tally = c.
Proof.
  induction tally as [| [z n] tally IH]; simpl; intros Hnd Hin.
  - contradiction.
  - inversion Hnd as [| ? ? Hz Hnd']; subst.
    destruct Hin as [[= -> ->] | Hin].
    + now rewrite eqb_refl_true.
    + destruct (eqb x z) eqn:E; [| now apply IH].
      apply eqb_spec in E. subst z.
      exfalso. apply Hz. apply in_map_iff. exists (x, c). auto.
Qed.

Lemma occurrences_positive (x : A) (s : Pandas.Series A) :
  In x s <-> (0 < occurrences eqb x s)%nat.
Proof.
  unfold occurrences. induction s as [| y s IH]; simpl.
  - split; [contradiction | lia].
  - destruct (eqb x y) eqn:E; simpl.
    + apply eqb_spec in E. subst. split; [lia | now left].
    + rewrite <- IH. split; [| now right].
      intros [-> | H]; [| exact H].
      rewrite eqb_refl_true in E. discriminate.
Qed.

(** The tally lists the distinct values of the Series in order of first
    appearance, each with the number of rows that hold it. *)
Lemma tally_spec (s : Pandas.Series A) :
  map fst (ValueCounts.tally eqb s) = Pandas.unique eqb s
  /\ NoDup (map fst (ValueCounts.tally eqb s))
  /\ forall x c,
       In (x, c) (ValueCounts.tally eqb s)
       <-> In x s /\ c = occurrences eqb x s.
Proof.
  unfold ValueCounts.tally.
  destruct (tally_acc s []) as [Hk Hc]. simpl in Hk, Hc.
  fold (Pandas.unique eqb s) in Hk.
  destruct (unique_spec eqb eqb_spec s) as [Hnd Hin].
  rewrite <- Hk in Hnd, Hin.
  split; [exact Hk |]. split; [exact Hnd |].
  intros x c. split.
  - intros H.
    split.
    + apply Hin. apply in_map_iff. exists (x, c). auto.
    + rewrite <- (count_in_member x c _ Hnd H). apply Hc.
  - intros [Hx ->].
    apply Hin in Hx. apply in_map_iff in Hx as [[x' c] [Heq Hxc]].
    simpl in Heq. subst x'.
    now rewrite <- (Hc x), (count_in_member x c _ Hnd Hxc).
Qed.
End TallySpec.

(** *** The most frequent values *)

Lemma descending_app {A : Type} (l1 l2 : list (A * nat)) (p q : A * nat) :
  ValueCounts.descending (l1 ++ l2) -> In p l1 -> In q l2 ->
  (snd q <= snd p)%nat.
Proof.
  unfold ValueCounts.descending.
  induction l1 as [| a l1 IH]; simpl; intros Hs Hp Hq; [contradiction |].
  apply StronglySorted_inv in Hs as [Hs Ha].
  destruct Hp as [-> | Hp]; [| now apply IH].
  rewrite Forall_forall in Ha. apply Ha. apply in_or_app. now right.
Qed.

Section ValueCountsSpec.
Context {A : Type}.
Variable eqb : A -> A -> bool.
Hypothesis eqb_spec : forall x y, eqb x y = true <-> x = y.
Variable sort_values : list (A * nat) -> list (A * nat).
Hypothesis sort_values_ok : ValueCounts.sorts_descending sort_values.

Lemma value_counts_spec (s : Pandas.Series A) :
  NoDup (map fst (ValueCounts.value_counts eqb sort_values s))
  /\ ValueCounts.descending (ValueCounts.value_counts eqb sort_values s)
  /\ forall x c,
       In (x, c) (ValueCounts.value_counts eqb sort_values s)
       <-> In x s /\ c = occurrences eqb x s.
Proof.
  unfold ValueCounts.value_counts.
  destruct (sort_values_ok (ValueCounts.tally eqb s)) as [Hperm Hdesc].
  destruct (tally_spec eqb eqb_spec s) as (_ & Hnd & Hin).
  split; [| split; [exact Hdesc |]].
  - eapply Permutation_NoDup; [| exact Hnd].
    apply Permutation_map. now symmetry.
  - intros x c. rewrite <- Hin. split; apply Permutation_in;
      [exact Hperm | now symmetry].
Qed.

(** The first [n] entries of [value_counts]: distinct values, each with
    the number of rows holding it, and no value left out occurs more
    often than a value listed. *)
Lemma top_n_spec (n : nat) (s : Pandas.Series A) :
  NoDup (map fst (ValueCounts.top_n eqb sort_values n s))
  /\ (forall x c,
         In (x, c) (ValueCounts.top_n eqb sort_values n s) ->
         In x s /\ c = occurrences eqb x s)
  /\ (forall x c y,
         In (x, c) (ValueCounts.top_n eqb sort_values n s) ->
         In y s ->
         ~ In y (map fst (ValueCounts.top_n eqb sort_values n s)) ->
         (occurrences eqb y s <= c)%nat).
Proof.
  unfold ValueCounts.top_n.
  destruct (value_counts_spec s) as (Hnd & Hdesc & Hin).
  set (vc := ValueCounts.value_counts eqb sort_values s) in *.
  pose proof (firstn_skipn n vc) as Hsplit.
  split; [| split].
  - rewrite <- Hsplit, map_app in Hnd. now apply NoDup_app_remove_r in Hnd.
  - intros x c Hxc. apply Hin. rewrite <- Hsplit.
    apply in_or_app. now left.
  - intros x c y Hxc Hy Hnot.
    assert (Hyc : In (y, occurrences eqb y s) vc) by now apply Hin.
    rewrite <- Hsplit in Hyc, Hdesc.
    apply in_app_or in Hyc as [Hyc | Hyc].
    + exfalso. apply Hnot. apply in_map_iff.
      exists (y, occurrences eqb y s). auto.
    + apply (descending_app _ _ (x, c) (y, occurrences eqb y s) Hdesc Hxc Hyc).
Qed.

(** A column of two values, one more frequent than the other. *)
Lemma value_counts_two (s : Pandas.Series A) (a b : A) :
  (forall v, In v s -> v = a \/ v = b) ->
  (0 < occurrences eqb b s < occurrences eqb a s)%nat ->
  ValueCounts.value_counts eqb sort_values s
  = [(a, occurrences eqb a s); (b, occurrences eqb b s)].
Proof.
  intros Hvals [Hb Hab].
  destruct (value_counts_spec s) as (Hnd & Hdesc & Hin).
  set (vc := ValueCounts.value_counts eqb sort_values s) in *.
  assert (Ha_in : In (a, occurrences eqb a s) vc).
  { apply Hin. split; [| reflexivity].
    apply (occurrences_positive eqb eqb_spec). lia. }
  assert (Hb_in : In (b, occurrences eqb b s) vc).
  { apply Hin. split; [| reflexivity].
    now apply (occurrences_positive eqb eqb_spec). }
  assert (Hne : a <> b) by (intros ->; lia).
  assert (Hall : forall p, In p vc ->
                   p = (a, occurrences eqb a s)
                   \/ p = (b, occurrences eqb b s)).
  { intros [x c] Hp. apply Hin in Hp as [Hx ->].
    destruct (Hvals x Hx) as [-> | ->]; auto. }
  destruct vc as [| p1 vc1]; [contradiction |].
  apply StronglySorted_inv in Hdesc as [Hdesc1 Hhead].
  rewrite Forall_forall in Hhead.
  simpl in Hnd. inversion Hnd as [| ? ? Hp1 Hnd1]; subst.
  assert (Hp1a : p1 = (a, occurrences eqb a s)).
  { destruct (Hall p1 (or_introl eq_refl)) as [H | H]; [exact H |].
    subst p1. destruct Ha_in as [Ha_in | Ha_in]; [congruence |].
    specialize (Hhead _ Ha_in). simpl in Hhead. lia. }
  subst p1. simpl in Hp1.
  destruct Hb_in as [Hb_in | Hb_in]; [congruence |].
  destruct vc1 as [| p2 vc2]; [contradiction |].
  simpl in Hnd1. inversion Hnd1 as [| ? ? Hp2 Hnd2]; subst.
  assert (Hp2b : p2 = (b, occurrences eqb b s)).
  { destruct (Hall p2 (or_intror (or_introl eq_refl))) as [H | H];
      [| exact H].
    subst p2. exfalso. apply Hp1. simpl. now left. }
  subst p2. simpl in Hp1, Hp2.
  destruct vc2 as [| p3 vc3]; [reflexivity |].
  exfalso.
  destruct (Hall p3 (or_intror (or_intror (or_introl eq_refl)))) as [H | H];
    subst p3.
  - apply Hp1. simpl. auto.
  - apply Hp2. simpl. auto.
Qed.
End ValueCountsSpec.

(** X17. Top 10 countries: at most ten countries, each listed once with the
    number of bookings from it, and no country left out has more
    bookings than a country listed; this holds whatever the sorting
    routine does with equal counts. *)
Theorem top_countries_most_frequent
  (sort_values : list (string * nat) -> list (string * nat))
  (t : list Booking) :
  ValueCounts.sorts_descending sort_values ->
  (List.length (top_countries sort_values t) <= 10)%nat
  /\ NoDup (map fst (top_countries sort_values t))
  /\ (forall x c,
         In (x, c) (top_countries sort_values t) ->
         In x (col country t)
         /\ c = occurrences String.eqb x (col country t))
  /\ (forall x c y,
         In (x, c) (top_countries sort_values t) ->
         In y (col country t) ->
         ~ In y (map fst (top_countries sort_values t)) ->
         (occurrences String.eqb y (col country t) <= c)%nat).
Proof.
  intros Hsort. unfold top_countries.
  destruct (top_n_spec String.eqb String.eqb_eq sort_values Hsort 10
              (col country t)) as (H1 & H2 & H3).
  split; [apply firstn_le_length |].
  split; [exact H1 |]. split; [exact H2 | exact H3].
Qed.

Lemma top_countries_most_frequent_witness :
  top_countries ValueCounts.insertion_sort Cases.guests
  = [("PRT"%string, 2%nat); ("GBR"%string, 1%nat); ("FRA"%string, 1%nat)]
  /\ NoDup (map fst (top_countries ValueCounts.insertion_sort Cases.guests)).
Proof.
  split; [reflexivity |].
  exact (proj1 (proj2 (top_countries_most_frequent
                         ValueCounts.insertion_sort Cases.guests
                         (proj1 insertion_sort_ok)))).
Defined.

(** X18. Top 10 agents: the same, on the agent column. *)
Theorem top_agents_most_frequent
  (sort_values : list (Z * nat) -> list (Z * nat)) (t : list Booking) :
  ValueCounts.sorts_descending sort_values ->
  (List.length (top_agents sort_values t) <= 10)%nat
  /\ NoDup (map fst (top_agents sort_values t))
  /\ (forall x c,
         In (x, c) (top_agents sort_values t) ->
         In x (col agent t) /\ c = occurrences Z.eqb x (col agent t))
  /\ (forall x c y,
         In (x, c) (top_agents sort_values t) ->
         In y (col agent t) ->
         ~ In y (map fst (top_agents sort_values t)) ->
         (occurrences Z.eqb y (col agent t) <= c)%nat).
Proof.
  intros Hsort. unfold top_agents.
  destruct (top_n_spec Z.eqb Z.eqb_eq sort_values Hsort 10
              (col agent t)) as (H1 & H2 & H3).
  split; [apply firstn_le_length |].
  split; [exact H1 |]. split; [exact H2 | exact H3].
Qed.

Lemma top_agents_most_frequent_witness :
  top_agents ValueCounts.insertion_sort Cases.guests
  = [(9, 2%nat); (-1, 1%nat); (240, 1%nat)]%Z
  /\ NoDup (map fst (top_agents ValueCounts.insertion_sort Cases.guests)).
Proof.
  split; [reflexivity |].
  exact (proj1 (proj2 (top_agents_most_frequent
                         ValueCounts.insertion_sort Cases.guests
                         (proj1 insertion_sort_ok)))).
Defined.

(** X19. The bars of the market segment chart: every segment of the table
    once, a segment with more bookings before one with fewer. *)
Theorem segment_order_by_count
  (sort_values : list (string * nat) -> list (string * nat))
  (t : list Booking) :
  ValueCounts.sorts_descending sort_values ->
  NoDup (segment_order sort_values t)
  /\ (forall x, In x (segment_order sort_values t)
                <-> In x (col market_segment t))
  /\ StronglySorted
       (fun a b =>
          (occurrences String.eqb b (col market_segment t)
           <= occurrences String.eqb a (col market_segment t))%nat)
       (segment_order sort_values t).
Proof.
  intros Hsort. unfold segment_order.
  destruct (value_counts_spec String.eqb String.eqb_eq sort_values Hsort
              (col market_segment t)) as (Hnd & Hdesc & Hin).
  set (vc := ValueCounts.value_counts String.eqb sort_values
               (col market_segment t)) in *.
  split; [exact Hnd |]. split.
  - intros x. rewrite in_map_iff. split.
    + intros [[x' c] [Heq Hp]]. simpl in Heq. subst x'.
      now apply Hin in Hp.
    + intros Hx.
      exists (x, occurrences String.eqb x (col market_segment t)).
      split; [reflexivity | now apply Hin].
  - assert (Hall : forall p, In p vc ->
                     snd p = occurrences String.eqb (fst p)
                               (col market_segment t)).
    { intros [x c] Hp. now apply Hin in Hp. }
    clear Hnd Hin. unfold ValueCounts.descending in Hdesc.
    induction Hdesc as [| p l Hl IH Hp]; simpl; constructor.
    + apply IH. intros q Hq. apply Hall. now right.
    + rewrite Forall_forall in *. intros x Hx.
      apply in_map_iff in Hx as [q [<- Hq]].
      rewrite <- (Hall p (or_introl eq_refl)).
      rewrite <- (Hall q (or_intror Hq)). now apply Hp.
Qed.

Lemma segment_order_by_count_witness :
  segment_order ValueCounts.insertion_sort Cases.guests
  = ["Online TA"; "Direct"]%string
  /\ NoDup (segment_order ValueCounts.insertion_sort Cases.guests).
Proof.
  split; [reflexivity |].
  exact (proj1 (segment_order_by_count ValueCounts.insertion_sort
                  Cases.guests (proj1 insertion_sort_ok))).
Defined.

(** X20. The repeat guest chart pairs the labels New and Repeat with the
    counts in the order of [value_counts], largest first. When the new
    guests (flag 0) are the larger group the bars are as labelled; when
    the repeated guests (flag 1) are the larger group, the bar labelled
    New shows the number of repeated guests and the bar labelled Repeat
    the number of new ones. *)
Theorem repeat_bars_follow_counts
  (sort_values : list (Z * nat) -> list (Z * nat))
  (is_repeated_guest : Pandas.Series Z) :
  ValueCounts.sorts_descending sort_values ->
  (forall v, In v is_repeated_guest -> v = 0%Z \/ v = 1%Z) ->
  ((0 < occurrences Z.eqb 1%Z is_repeated_guest
      < occurrences Z.eqb 0%Z is_repeated_guest)%nat ->
   repeat_bars sort_values is_repeated_guest
   = (["New"; "Repeat"]%string,
      [occurrences Z.eqb 0%Z is_repeated_guest;
       occurrences Z.eqb 1%Z is_repeated_guest]))
  /\ ((0 < occurrences Z.eqb 0%Z is_repeated_guest
         < occurrences Z.eqb 1%Z is_repeated_guest)%nat ->
      repeat_bars sort_values is_repeated_guest
      = (["New"; "Repeat"]%string,
         [occurrences Z.eqb 1%Z is_repeated_guest;
          occurrences Z.eqb 0%Z is_repeated_guest])).
Proof.
  intros Hsort Hflags. unfold repeat_bars, repeat_counts. split; intros Hc.
  - rewrite (value_counts_two Z.eqb Z.eqb_eq sort_values Hsort
               is_repeated_guest 0%Z 1%Z); [reflexivity | | exact Hc].
    exact Hflags.
  - rewrite (value_counts_two Z.eqb Z.eqb_eq sort_values Hsort
               is_repeated_guest 1%Z 0%Z); [reflexivity | | exact Hc].
    intros v Hv. destruct (Hflags v Hv); auto.
Qed.

Lemma repeat_bars_follow_counts_witness :
  (0 < occurrences Z.eqb 0%Z Cases.mostly_repeated
     < occurrences Z.eqb 1%Z Cases.mostly_repeated)%nat
  /\ repeat_bars ValueCounts.insertion_sort Cases.mostly_repeated
     = (["New"; "Repeat"]%string, [4%nat; 2%nat]).
Proof.
  assert (Hc : (0 < occurrences Z.eqb 0%Z Cases.mostly_repeated
                  < occurrences Z.eqb 1%Z Cases.mostly_repeated)%nat)
    by (vm_compute; lia).
  split; [exact Hc |].
  apply (proj2 (repeat_bars_follow_counts ValueCounts.insertion_sort
                  Cases.mostly_repeated (proj1 insertion_sort_ok)
                  ltac:(intros v Hv; simpl in Hv; intuition lia)) Hc).
Defined.

(** *** Loading *)

Lemma fillna_occurrences {A : Type} (eqb : A -> A -> bool) (x value : A)
  (s : Pandas.Series (option A)) :
  occurrences eqb x (Loader.fillna s value)
  = (Loader.holding eqb x s
     + if eqb x value then Loader.missing s else 0)%nat.
Proof.
  unfold occurrences, Loader.holding, Loader.missing, Loader.fillna.
  induction s as [| [a |] s IH]; simpl.
  - now destruct (eqb x value).
  - destruct (eqb x a); simpl; rewrite IH; reflexivity.
  - destruct (eqb x value); simpl; rewrite IH; lia.
Qed.

(** X21. After loading, the rows counted under the country Unknown are the
    rows whose country was missing together with those that held
    Unknown, and the rows counted under agent -1 are those whose agent
    was missing together with those that held -1; every other value
    keeps its count. No column changes its length. *)
Theorem load_data_sentinels (raw : Loader.RawColumns) :
  (forall c,
      occurrences String.eqb c (Loader.country (Loader.load_data raw))
      = (Loader.holding String.eqb c (Loader.raw_country raw)
         + if String.eqb c "Unknown"
           then Loader.missing (Loader.raw_country raw)
           else 0)%nat)
  /\ (forall a,
         occurrences Z.eqb a (Loader.agent (Loader.load_data raw))
         = (Loader.holding Z.eqb a (Loader.raw_agent raw)
            + if Z.eqb a (-1) then Loader.missing (Loader.raw_agent raw)
              else 0)%nat)
  /\ List.length (Loader.country (Loader.load_data raw))
     = List.length (Loader.raw_country raw)
  /\ List.length (Loader.agent (Loader.load_data raw))
     = List.length (Loader.raw_agent raw).
Proof.
  repeat split.
  - intros c. apply fillna_occurrences.
  - intros a. apply fillna_occurrences.
  - apply length_map.
  - apply length_map.
Qed.

(** Four raw rows: two countries and two agents are missing. *)
Example load_data_sample :
  Loader.country (Loader.load_data Cases.raw)
  = ["PRT"; "Unknown"; "Unknown"; "Unknown"]%string
  /\ Loader.agent (Loader.load_data Cases.raw) = [9; -1; -1; -1]%Z
  /\ Loader.company (Loader.load_data Cases.raw) = [-1; -1; 40; -1]%Z
  /\ occurrences Z.eqb (-1)%Z (Loader.agent (Loader.load_data Cases.raw))
     = 3%nat.
Proof. repeat split. Qed.

(** *** The frames in the store after a run *)

Lemma same_length_checks : checks_lengths same_length.
Proof.
  unfold checks_lengths, same_length. split.
  - intros x y H. now apply Nat.eqb_eq.
  - intros x y H _. now apply Nat.eqb_neq.
Qed.

Lemma repeat_bars_lengths (sort_values : list (Z * nat) -> list (Z * nat))
  (t : list Booking) :
  ValueCounts.sorts_descending sort_values ->
  List.length (fst (repeat_bars sort_values (col is_repeated_guest t)))
  = 2%nat
  /\ List.length (snd (repeat_bars sort_values (col is_repeated_guest t)))
     = List.length (guest_flags t).
Proof.
  intros Hsort. split; [reflexivity |].
  unfold repeat_bars, repeat_counts, ValueCounts.value_counts, guest_flags.
  simpl. rewrite length_map.
  rewrite (Permutation_length
             (proj1 (Hsort (ValueCounts.tally Z.eqb
                              (col is_repeated_guest t))))).
  destruct (tally_spec Z.eqb Z.eqb_eq (col is_repeated_guest t)) as [Hk _].
  rewrite <- Hk. now rewrite length_map.
Qed.

(** C3, as the script has it. The filter allocates a new frame, and the
    source frame is the same after the run as before it, whether the run
    ends or stops. The filtered frame is changed only by the
    revenue-by-month step, which stores a column named revenue in it and
    keeps its rows. The run reaches that step when the filtered rows hold
    exactly two values of [is_repeated_guest]; when they hold one value,
    or more than two, the bar plot of line 166 raises and the filtered
    frame stays as the filter produced it. *)
Theorem script_frame_effect
  (sort_values : list (Z * nat) -> list (Z * nat))
  (barplot : list string -> list nat -> bool)
  (h0 : heap) (df : ref) (sel : Selection) (d : DataFrame) :
  ValueCounts.sorts_descending sort_values ->
  checks_lengths barplot ->
  deref h0 df = Some d ->
  exists h filtered_df early outcome,
    script sort_values barplot h0 df sel
    = Some (h, filtered_df, early, outcome)
    /\ filtered_df <> df
    /\ (forall p, p <> filtered_df -> deref h p = deref h0 p)
    /\ deref h df = Some d
    /\ match outcome with
       | Finished _ =>
           exists f,
             deref h filtered_df = Some f
             /\ rows f = filtered_rows sel (rows d)
             /\ f = setitem (getitem_mask d (filter_mask sel (rows d)))
                      "revenue" (revenue_series (filtered_rows sel (rows d)))
             /\ get_column "revenue" (added f)
                = Some (revenue_series (filtered_rows sel (rows d)))
       | Raised line =>
           line = 166%nat
           /\ deref h filtered_df
              = Some (getitem_mask d (filter_mask sel (rows d)))
       end
    /\ (List.length (guest_flags (filtered_rows sel (rows d))) = 2%nat ->
        exists late, outcome = Finished late)
    /\ (List.length (guest_flags (filtered_rows sel (rows d))) <> 2%nat ->
        guest_flags (filtered_rows sel (rows d)) <> [] ->
        outcome = Raised 166).
Proof.
  intros Hsort [Hdraw Hraise] Hd.
  pose proof (deref_bound _ _ _ Hd) as Hlt.
  set (f0 := getitem_mask d (filter_mask sel (rows d))).
  set (f := setitem f0 "revenue" (revenue_series (rows f0))).
  assert (Hget : get_column "revenue" (added f)
                 = Some (revenue_series (rows f0)))
    by apply get_set_column.
  assert (Hnew : deref (h0 ++ [f0]) (List.length h0) = Some f0)
    by apply (deref_alloc_new h0 f0).
  assert (Hfin : deref (h0 ++ [f]) (List.length h0) = Some f)
    by apply (deref_alloc_new h0 f).
  assert (Hold : forall (x : DataFrame) p,
             p <> List.length h0 -> deref (h0 ++ [x]) p = deref h0 p).
  { intros x p Hp. unfold deref.
    destruct (Nat.lt_ge_cases p (List.length h0)) as [Hl | Hg].
    - now apply nth_error_app1.
    - rewrite (proj2 (nth_error_None h0 p)) by lia.
      apply nth_error_None. rewrite length_app. simpl. lia. }
  destruct (repeat_bars_lengths sort_values (rows f0) Hsort) as [Hx Hy].
  set (bars := repeat_bars sort_values (col is_repeated_guest (rows f0)))
    in *.
  change (rows f0) with (filtered_rows sel (rows d)) in Hy.
  destruct (barplot (fst bars) (snd bars)) eqn:Hbar.
  - exists (h0 ++ [f]), (List.length h0).
    eexists. exists (Finished
                       {| upgrade_rate_number := upgrade_rate (rows f0);
                          month_cancel_series := month_cancel (rows f0);
                          revenue_month_series :=
                            revenue_month_of
                              (col arrival_date_month (rows f))
                              (revenue_series (rows f0)) |}).
    split.
    + unfold script, alloc. rewrite Hd. cbn [bind]. fold f0.
      rewrite Hnew. cbn [bind]. fold bars. rewrite Hbar.
      rewrite update_last.
      change (setitem f0 "revenue" _) with f. rewrite Hfin. cbn [bind].
      rewrite Hget. reflexivity.
    + split; [lia |]. split; [intros p Hp; now apply Hold |].
      split; [rewrite Hold by lia; exact Hd |].
      split; [exists f; repeat split; assumption |].
      split; [intros _; eexists; reflexivity |].
      intros Hlen Hne.
      rewrite Hraise in Hbar; [discriminate | rewrite Hx, Hy; congruence |].
      intros Hnil. rewrite Hnil in Hy. simpl in Hy.
      apply Hne. now apply length_zero_iff_nil.
  - exists (h0 ++ [f0]), (List.length h0). eexists. exists (Raised 166).
    split.
    + unfold script, alloc. rewrite Hd. cbn [bind]. fold f0.
      rewrite Hnew. cbn [bind]. fold bars. rewrite Hbar. reflexivity.
    + split; [lia |]. split; [intros p Hp; now apply Hold |].
      split; [rewrite Hold by lia; exact Hd |].
      split; [split; [reflexivity | exact Hnew] |].
      split; [| intros _ _; reflexivity].
      intros Hlen. rewrite Hdraw in Hbar; [discriminate |].
      rewrite Hx, Hy. congruence.
Qed.

(** C3, as stated, fails: on a table with a new and a repeated guest the
    run reaches the revenue-by-month step, after which the filtered frame
    is not the frame the filter produced, it has the revenue column. *)
Lemma script_changes_filtered_frame :
  ~ tables_unchanged ValueCounts.insertion_sort same_length
      [mkFrame Cases.new_and_repeated []] 0%nat Sample.everything.
Proof.
  unfold tables_unchanged. vm_compute. intros [_ H]. discriminate H.
Qed.

Lemma script_frame_effect_witness :
  deref [mkFrame Cases.new_and_repeated []] 0%nat
  = Some (mkFrame Cases.new_and_repeated [])
  /\ List.length
       (guest_flags
          (filtered_rows Sample.everything Cases.new_and_repeated))
     = 2%nat
  /\ exists h filtered_df early late f,
       script ValueCounts.insertion_sort same_length
         [mkFrame Cases.new_and_repeated []] 0%nat Sample.everything
       = Some (h, filtered_df, early, Finished late)
       /\ deref h 0%nat = Some (mkFrame Cases.new_and_repeated [])
       /\ deref h filtered_df = Some f
       /\ rows f = Cases.new_and_repeated
       /\ added_names f = ["revenue"%string].
Proof.
  split; [reflexivity |]. split; [reflexivity |].
  destruct (script_frame_effect ValueCounts.insertion_sort same_length
              [mkFrame Cases.new_and_repeated []] 0%nat Sample.everything
              (mkFrame Cases.new_and_repeated [])
              (proj1 insertion_sort_ok) same_length_checks eq_refl)
    as (h & p & early & outcome & Hrun & _ & _ & Hsrc & Hout & Hfin & _).
  destruct (Hfin eq_refl) as [late ->].
  destruct Hout as (f & Hf & Hrows & Heq & _).
  exists h, p, early, late, f.
  repeat split; try assumption.
  rewrite Heq. reflexivity.
Defined.
